(** * HiveOpenings: the opening log and the exclusion of timestamps

    A shallow embedding of [libOpenings.py].  The library reads a log of
    hive openings into a table ([build_openings_df]) and answers three
    queries over it: [get_invalid_times], [filter_timestamps] and
    [valid_ts].

    Conventions of the embedding.
    - A string is a sequence of code points below 256.
    - A point in time is an integer count of nanoseconds since the epoch,
      as in a [datetime64[ns]] column.  A duration or a sum that leaves the
      64-bit range of such a count raises, as it does in pandas.  The
      conversion of an instant to the local time of its zone, which can
      leave the range for an instant less than a day from its ends, is not
      modelled: a property that says a query returns is stated for
      openings and sums a day inside the range.
    - A raised exception is a value of [exn]; a function that can raise
      returns a [result].
    - The time zone database is not part of the library: localisation to
      CET is a parameter of the loader. *)

From Stdlib Require Import ZArith List Bool Ascii String Lia.
From Stdlib Require Import Sorting.Sorted Sorting.Permutation.
Import ListNotations.

Open Scope Z_scope.

(** ** Exceptions *)

Inductive exn : Type :=
| AssertionError (msg : string)
| ValueError
| KeyError (key : string)
| AmbiguousTimeError
| NonExistentTimeError
| OutOfBoundsTimedelta
| OverflowError.

Inductive result (A : Type) : Type :=
| Ok (a : A)
| Raise (e : exn).

Arguments Ok {A} a.
Arguments Raise {A} e.

Definition bind {A B : Type} (m : result A) (k : A -> result B) : result B :=
  match m with
  | Ok a => k a
  | Raise e => Raise e
  end.

Notation "x <- m ;; k" := (bind m (fun x => k))
  (at level 61, m at next level, right associativity).

(** Applies [f] to the cells of a column from the first to the last; the
    first cell that raises decides the outcome. *)
Fixpoint mapM {A B : Type} (f : A -> result B) (l : list A) : result (list B) :=
  match l with
  | [] => Ok []
  | x :: rest =>
      y <- f x ;;
      ys <- mapM f rest ;;
      Ok (y :: ys)
  end.

(** ** Python strings *)

Module PyStr.

Definition code (c : ascii) : Z := Z.of_N (N_of_ascii c).

(** [str.isspace] on one character. *)
Definition isspace (c : ascii) : bool :=
  let n := code c in
  ((9 <=? n) && (n <=? 13)) || ((28 <=? n) && (n <=? 32))
  || (n =? 133) || (n =? 160).

(** The characters matched by the regular expression [\d]. *)
Definition isdigit (c : ascii) : bool :=
  let n := code c in (48 <=? n) && (n <=? 57).

Definition digit_value (c : ascii) : Z := code c - 48.

Definition is_empty (s : string) : bool :=
  match s with
  | EmptyString => true
  | String _ _ => false
  end.

Fixpoint lstrip (s : string) : string :=
  match s with
  | EmptyString => EmptyString
  | String c rest => if isspace c then lstrip rest else s
  end.

Fixpoint rstrip (s : string) : string :=
  match s with
  | EmptyString => EmptyString
  | String c rest =>
      let rest' := rstrip rest in
      if isspace c && is_empty rest' then EmptyString else String c rest'
  end.

(** [s.strip()] *)
Definition strip (s : string) : string := rstrip (lstrip s).

(** [s.startswith(c)] for a prefix of one character. *)
Definition startswith (s : string) (c : ascii) : bool :=
  match s with
  | EmptyString => false
  | String d _ => Ascii.eqb d c
  end.

(** [s.split(sep, maxsplit)] for a separator of one character: at most
    [maxsplit] cuts, from the left; two separators in a row enclose an
    empty field. *)
Fixpoint split (sep : ascii) (s : string) (maxsplit : nat) {struct s}
  : list string :=
  match s with
  | EmptyString => [EmptyString]
  | String c rest =>
      match maxsplit with
      | O => [s]
      | S k =>
          if Ascii.eqb c sep then EmptyString :: split sep rest k
          else match split sep rest maxsplit with
               | [] => [String c EmptyString]
               | field :: fields => String c field :: fields
               end
      end
  end.

(** [s.split(sep)]: no limit on the number of cuts. *)
Definition split_all (sep : ascii) (s : string) : list string :=
  split sep s (String.length s).

(** [list(s)]: the characters of [s], each as a string of length one. *)
Fixpoint chars (s : string) : list string :=
  match s with
  | EmptyString => []
  | String c rest => String c EmptyString :: chars rest
  end.

End PyStr.

(** ** [pd.to_datetime(_, format='%d/%m/%y %H:%M')] *)

Module Strptime.
Import PyStr.

(** A matcher lists the ways a pattern matches a prefix of its input,
    in the order in which a backtracking engine tries them; each way is
    the value read and the input left. *)
Definition matcher (A : Type) : Type := string -> list (A * string).

Definition seq {A B : Type} (p : matcher A) (k : A -> matcher B) : matcher B :=
  fun s => flat_map (fun '(a, rest) => k a rest) (p s).

Definition alt {A : Type} (p q : matcher A) : matcher A :=
  fun s => (p s ++ q s)%list.

Definition ret {A : Type} (a : A) : matcher A := fun s => [(a, s)].

Definition between (lo hi : Z) (c : ascii) : bool :=
  (lo <=? code c) && (code c <=? hi).

(** One character of a class, read as a decimal digit. *)
Definition class (lo hi : ascii) : matcher Z :=
  fun s =>
    match s with
    | String c rest =>
        if between (code lo) (code hi) c then [(digit_value c, rest)] else []
    | EmptyString => []
    end.

Definition lit (c : ascii) : matcher unit :=
  fun s =>
    match s with
    | String d rest => if Ascii.eqb d c then [(tt, rest)] else []
    | EmptyString => []
    end.

Definition pair2 (p q : matcher Z) : matcher Z :=
  seq p (fun a => seq q (fun b => ret (10 * a + b))).

(** [\s+], greedy: the longest run first. *)
Fixpoint spaces (s : string) : list (unit * string) :=
  match s with
  | String c rest => if isspace c then (spaces rest ++ [(tt, rest)])%list else []
  | EmptyString => []
  end.

(** [%d] is [3[0-1]|[1-2]\d|0[1-9]|[1-9]| [1-9]]. *)
Definition re_d : matcher Z :=
  alt (pair2 (class "3" "3") (class "0" "1"))
 (alt (pair2 (class "1" "2") (class "0" "9"))
 (alt (pair2 (class "0" "0") (class "1" "9"))
 (alt (class "1" "9")
      (seq (lit " ") (fun _ => class "1" "9"))))).

(** [%m] is [1[0-2]|0[1-9]|[1-9]]. *)
Definition re_m : matcher Z :=
  alt (pair2 (class "1" "1") (class "0" "2"))
 (alt (pair2 (class "0" "0") (class "1" "9"))
      (class "1" "9")).

(** [%y] is [\d\d]. *)
Definition re_y : matcher Z := pair2 (class "0" "9") (class "0" "9").

(** [%H] is [2[0-3]|[0-1]\d|\d]. *)
Definition re_H : matcher Z :=
  alt (pair2 (class "2" "2") (class "0" "3"))
 (alt (pair2 (class "0" "1") (class "0" "9"))
      (class "0" "9")).

(** [%M] is [[0-5]\d|\d]. *)
Definition re_M : matcher Z :=
  alt (pair2 (class "0" "5") (class "0" "9")) (class "0" "9").

Record fields : Type := mkFields
  { f_day : Z; f_month : Z; f_year : Z; f_hour : Z; f_minute : Z }.

(** The format [%d/%m/%y %H:%M] as a pattern. *)
Definition format_regex : matcher fields :=
  seq re_d (fun d =>
  seq (lit "/") (fun _ =>
  seq re_m (fun m =>
  seq (lit "/") (fun _ =>
  seq re_y (fun y =>
  seq spaces (fun _ =>
  seq re_H (fun H =>
  seq (lit ":") (fun _ =>
  seq re_M (fun M =>
  ret (mkFields d m y H M)))))))))).

Definition is_leap (y : Z) : bool :=
  ((y mod 4 =? 0) && negb (y mod 100 =? 0)) || (y mod 400 =? 0).

Definition days_in_month (y m : Z) : Z :=
  if m =? 2 then (if is_leap y then 29 else 28)
  else if (m =? 4) || (m =? 6) || (m =? 9) || (m =? 11) then 30
  else 31.

Definition days_before_year (y : Z) : Z :=
  let p := y - 1 in p * 365 + p / 4 - p / 100 + p / 400.

Fixpoint days_before_month_aux (y : Z) (k : nat) : Z :=
  match k with
  | O => 0
  | S j => days_before_month_aux y j + days_in_month y (Z.of_nat k)
  end.

(** The days of year [y] before the first of month [m]. *)
Definition days_before_month (y m : Z) : Z :=
  days_before_month_aux y (Z.to_nat (m - 1)).

(** [date(y, m, d).toordinal()] *)
Definition toordinal (y m d : Z) : Z :=
  days_before_year y + days_before_month y m + d.

Definition epoch_ordinal : Z := 719163.
Definition ns_per_minute : Z := 60000000000.

(** A two-digit year up to 68 is of this century, a later one of the
    last. *)
Definition full_year (yy : Z) : Z :=
  if yy <=? 68 then yy + 2000 else yy + 1900.

(** The wall-clock time of the fields, in nanoseconds since the epoch;
    a day the month does not have is refused. *)
Definition wall_clock (f : fields) : result Z :=
  let y := full_year (f_year f) in
  if f_day f <=? days_in_month y (f_month f) then
    Ok ((((toordinal y (f_month f) (f_day f) - epoch_ordinal) * 1440)
         + f_hour f * 60 + f_minute f) * ns_per_minute)
  else Raise ValueError.

(** One string: the first match of the pattern must use the whole
    string. *)
Definition strptime (val : string) : result Z :=
  match format_regex val with
  | [] => Raise ValueError
  | (f, rest) :: _ => if is_empty rest then wall_clock f else Raise ValueError
  end.

(** One cell of the column: a missing value becomes [NaT] (here [None]),
    a string is parsed.  The texts that pandas reads without looking at
    the format, the empty text and the names of a missing value, of the
    present and of today, have no space; the loader puts one in every text
    it builds, so none of them reaches this function and they are left
    out. *)
Definition to_datetime (cell : option string) : result (option Z) :=
  match cell with
  | None => Ok None
  | Some val => t <- strptime val ;; Ok (Some t)
  end.

End Strptime.

(** ** The table of openings *)

(** A cell of a [datetime64[ns, CET]] column: the instant, or [NaT]. *)
Definition cell : Type := option Z.

(** A row of the table the loader returns. *)
Record OpeningRecord : Type := mkOpening
  { start_opening : cell;
    end_opening : cell;
    hive_nb : Z;
    comment : option string }.

(** ** [build_openings_df] *)

Module Loader.
Import PyStr.

(** A dict appended to [openings_data]; the key [comment] is present
    only for a line of four fields. *)
Record raw_row : Type := mkRaw
  { date : string;
    time : string;
    hives : string;
    raw_comment : option string }.

(** The body of the loop over the lines of the file. *)
Definition parse_line (opening : string) : option raw_row :=
  if negb (is_empty (strip opening)) && negb (startswith opening "#") then
    match split " " (strip opening) 3 with
    | [d; t; h] => Some (mkRaw (strip d) (strip t) (strip h) None)
    | [d; t; h; c] => Some (mkRaw (strip d) (strip t) (strip h) (Some (strip c)))
    | _ => None
    end
  else None.

Fixpoint openings_data (openings : list string) : list raw_row :=
  match openings with
  | [] => []
  | opening :: rest =>
      match parse_line opening with
      | Some row => row :: openings_data rest
      | None => openings_data rest
      end
  end.

(** [date + ' ' + time.str.split('-').str[0]] *)
Definition start_text (row : raw_row) : option string :=
  match split_all "-" (time row) with
  | first :: _ => Some (date row ++ " " ++ first)%string
  | [] => None
  end.

(** [date + ' ' + time.str.split('-').str[1]]; a time without ['-'] has
    no second part and the sum is missing. *)
Definition end_text (row : raw_row) : option string :=
  match split_all "-" (time row) with
  | _ :: second :: _ => Some (date row ++ " " ++ second)%string
  | _ => None
  end.

Definition leading_digit (s : string) : bool :=
  match s with
  | String c _ => isdigit c
  | EmptyString => false
  end.

Fixpoint digit_run (s : string) : string :=
  match s with
  | String c rest => if isdigit c then String c (digit_run rest) else EmptyString
  | EmptyString => EmptyString
  end.

(** [str.extract(r'h(\d+)')]: the digits of the leftmost [h] that a
    digit follows; nothing when there is none. *)
Fixpoint extract_hive_digits (s : string) : option string :=
  match s with
  | EmptyString => None
  | String c rest =>
      if Ascii.eqb c "h" && leading_digit rest then Some (digit_run rest)
      else extract_hive_digits rest
  end.

(** [lambda x: list(x) if pd.notnull(x) else []] *)
Definition hive_list (row : raw_row) : list string :=
  match extract_hive_digits (hives row) with
  | Some x => chars x
  | None => []
  end.

(** A row once its two timestamps are computed. *)
Record timed_row : Type := mkTimed
  { t_raw : raw_row;
    t_start : cell;
    t_end : cell }.

(** [explode('hive_nb')] on one row: a row per element, and one row with
    a missing value for an empty list. *)
Definition explode_row (r : timed_row) : list (timed_row * option string) :=
  match hive_list (t_raw r) with
  | [] => [(r, None)]
  | hs => map (fun h => (r, Some h)) hs
  end.

(** [int(x)] for the cells of the exploded column: a missing value
    cannot be cast. *)
Definition to_int (x : option string) : result Z :=
  match x with
  | Some (String c EmptyString) =>
      if isdigit c then Ok (digit_value c) else Raise ValueError
  | _ => Raise ValueError
  end.

Definition cast_row (r : timed_row * option string) : result OpeningRecord :=
  n <- to_int (snd r) ;;
  Ok (mkOpening (t_start (fst r)) (t_end (fst r)) n (raw_comment (t_raw (fst r)))).

Fixpoint zip_rows (rows : list raw_row) (starts ends : list cell)
  : list timed_row :=
  match rows, starts, ends with
  | r :: rows', s :: starts', e :: ends' =>
      mkTimed r s e :: zip_rows rows' starts' ends'
  | _, _, _ => []
  end.

Section WithZone.

(** [tz_localize('CET')] on one wall-clock time: the instant, or the
    error of a time that the zone has twice or not at all. *)
Variable tz_localize : Z -> result Z.

Definition localize_cell (c : cell) : result cell :=
  match c with
  | None => Ok None
  | Some wall => t <- tz_localize wall ;; Ok (Some t)
  end.

(** The table from the collected rows, column by column as the source
    computes it.  A frame built from no row has no column [date]. *)
Definition build_from_rows (rows : list raw_row)
  : result (list OpeningRecord) :=
  match rows with
  | [] => Raise (KeyError "date")
  | _ =>
      starts <- mapM Strptime.to_datetime (map start_text rows) ;;
      ends <- mapM Strptime.to_datetime (map end_text rows) ;;
      starts <- mapM localize_cell starts ;;
      ends <- mapM localize_cell ends ;;
      mapM cast_row (flat_map explode_row (zip_rows rows starts ends))
  end.

(** [openings] is what [file.readlines()] returns. *)
Definition build_openings_df (openings : list string)
  : result (list OpeningRecord) :=
  build_from_rows (openings_data openings).

End WithZone.

(** The zone at its standard offset, one hour ahead of UTC, as CET is
    outside summer time. *)
Definition standard_time (wall : Z) : result Z :=
  Ok (wall - 60 * Strptime.ns_per_minute).

End Loader.

(** ** Timestamps *)

(** A value a caller passes as a [pd.Timestamp]: [NaT], or an instant
    with the zone it carries; [tzinfo] is [None] for a naive one.  The
    value of an aware timestamp is its instant in UTC. *)
Inductive datetime : Type :=
| NaT
| Stamp (value : Z) (tzinfo : option string).

(** [ts.tzinfo is not None] *)
Definition is_aware (t : datetime) : bool :=
  match t with
  | Stamp _ (Some _) => true
  | _ => false
  end.

(** The element of a column as [iterrows] hands it over, and as the
    comparisons of the column with a timestamp see it. *)
Definition of_cell (c : cell) : datetime :=
  match c with
  | Some v => Stamp v (Some "CET"%string)
  | None => NaT
  end.

(** Comparisons of aware timestamps compare the instants; every
    comparison with [NaT] is false. *)
Definition compare_with (op : Z -> Z -> bool) (a b : datetime) : bool :=
  match a, b with
  | Stamp x _, Stamp y _ => op x y
  | _, _ => false
  end.

Definition dt_lt : datetime -> datetime -> bool := compare_with Z.ltb.
Definition dt_le : datetime -> datetime -> bool := compare_with Z.leb.
Definition dt_gt : datetime -> datetime -> bool := compare_with Z.gtb.
Definition dt_ge : datetime -> datetime -> bool := compare_with Z.geb.

(** The ends of the range of a 64-bit count of nanoseconds; the least
    value of the range is the one that stands for [NaT]. *)
Definition i8max : Z := 9223372036854775807.
Definition i8min : Z := -9223372036854775808.

(** [pd.Timedelta(minutes=m)], in nanoseconds; a duration that does not
    fit is refused. *)
Definition Timedelta (minutes : Z) : result Z :=
  let value := minutes * Strptime.ns_per_minute in
  if (- i8max <=? value) && (value <=? i8max) then Ok value
  else Raise OutOfBoundsTimedelta.

(** [t + pd.Timedelta(...)], on a cell of a column and on a timestamp:
    [NaT] stays [NaT], a sum that leaves the range raises, and the sum
    that is the value of [NaT] is [NaT]. *)
Definition dt_add (t : datetime) (delta : Z) : result datetime :=
  match t with
  | NaT => Ok NaT
  | Stamp v tz =>
      let sum := v + delta in
      if (sum <? i8min) || (i8max <? sum) then Raise OverflowError
      else if sum =? i8min then Ok NaT
      else Ok (Stamp sum tz)
  end.

(** [max(a, b)] and [min(a, b)] keep the first argument unless the second
    is strictly beyond it. *)
Definition py_max (a b : datetime) : datetime := if dt_gt b a then b else a.
Definition py_min (a b : datetime) : datetime := if dt_lt b a then b else a.

(** [min(l)] and [max(l)] of a list. *)
Definition min_of (l : list datetime) : result datetime :=
  match l with
  | [] => Raise ValueError
  | x :: rest => Ok (fold_left py_min rest x)
  end.

Definition max_of (l : list datetime) : result datetime :=
  match l with
  | [] => Raise ValueError
  | x :: rest => Ok (fold_left py_max rest x)
  end.

(** [sorted(l)]: a stable sort; equal timestamps keep their order. *)
Fixpoint insert_sorted (x : datetime) (l : list datetime) : list datetime :=
  match l with
  | [] => [x]
  | y :: rest => if dt_lt y x then y :: insert_sorted x rest else x :: l
  end.

Fixpoint sorted (l : list datetime) : list datetime :=
  match l with
  | [] => []
  | x :: rest => insert_sorted x (sorted rest)
  end.

(** ** The queries *)

(** A dict with the keys ['start'] and ['end']. *)
Record interval : Type := mkInterval
  { start : datetime;
    end_ : datetime }.

Section Queries.

(** The module-level table, built once when the module is loaded. *)
Variable openings_df : list OpeningRecord.

(** The mask of the second filter for one row, from its start [s] and its
    end with the recovery added [e]. *)
Definition overlaps (start_ts end_ts s e : datetime) : bool :=
  (dt_lt s end_ts && dt_ge s start_ts)
  || (dt_gt e start_ts && dt_le e end_ts)
  || (dt_le s start_ts && dt_ge e end_ts).

(** The dict the loop appends for one row. *)
Definition exclusion (start_ts end_ts : datetime) (delta : Z)
  (row : OpeningRecord) : result interval :=
  end_exclusion <- dt_add (of_cell (end_opening row)) delta ;;
  Ok {| start := py_max (of_cell (start_opening row)) start_ts;
        end_ := py_min end_exclusion end_ts |}.

(** The assertions come first; then the rows of the hive; then the mask,
    for which the duration is made and added to the whole column of ends;
    then the loop over the rows the mask keeps. *)
Definition get_invalid_times (start_ts end_ts : datetime) (hive : Z)
  (recovery_time : Z) : result (list interval) :=
  if negb (is_aware start_ts) then
    Raise (AssertionError "start_ts must be timezone-aware")
  else if negb (is_aware end_ts) then
    Raise (AssertionError "end_ts must be timezone-aware")
  else
    let filtered_openings :=
      filter (fun row => hive_nb row =? hive) openings_df in
    delta <- Timedelta recovery_time ;;
    ends <- mapM (fun row => dt_add (of_cell (end_opening row)) delta)
              filtered_openings ;;
    let filtered_openings :=
      map fst
        (filter (fun row_end =>
                   overlaps start_ts end_ts
                     (of_cell (start_opening (fst row_end))) (snd row_end))
           (combine filtered_openings ends)) in
    mapM (exclusion start_ts end_ts delta) filtered_openings.

(** [invalid['start'] <= ts <= invalid['end']] *)
Definition inside (ts : datetime) (invalid : interval) : bool :=
  dt_le (start invalid) ts && dt_le ts (end_ invalid).

(** The flag [verbose] only prints and is left out. *)
Definition filter_timestamps (timestamps : list datetime) (hive : Z)
  (recovery_time : Z) : result (list datetime) :=
  if negb (forallb is_aware timestamps) then
    Raise (AssertionError "All timestamps must be timezone-aware")
  else
    let timestamps := sorted timestamps in
    start_ts <- min_of timestamps ;;
    end_ts <- max_of timestamps ;;
    invalid_times <- get_invalid_times start_ts end_ts hive recovery_time ;;
    Ok (filter (fun ts => negb (existsb (inside ts) invalid_times)) timestamps).

Definition valid_ts (timestamp : datetime) (hive : Z) (recovery_time : Z)
  : result bool :=
  valid <- filter_timestamps [timestamp] hive recovery_time ;;
  Ok (0 <? Z.of_nat (List.length valid)).

End Queries.

(** The default of [recovery_time]. *)
Definition default_recovery_time : Z := 60.

(** ** Notions the properties are stated with *)

(** The instant of a timestamp; [NaT] has none. *)
Definition instant (t : datetime) : option Z :=
  match t with
  | Stamp v _ => Some v
  | NaT => None
  end.

(** Ascending order of time: every element is at or before every later
    one. *)
Definition ascending (l : list datetime) : Prop :=
  StronglySorted (fun a b => dt_le a b = true) l.

(** [Subsequence l1 l2]: [l1] is [l2] with some elements left out. *)
Inductive Subsequence {A : Type} : list A -> list A -> Prop :=
| sub_nil : Subsequence [] []
| sub_skip : forall x l1 l2, Subsequence l1 l2 -> Subsequence l1 (x :: l2)
| sub_keep : forall x l1 l2, Subsequence l1 l2 -> Subsequence (x :: l1) (x :: l2).

(** The nanoseconds from the epoch to [m] minutes after midnight of the
    first of February 2024: an instant when read in UTC, a wall-clock time
    when read before localisation. *)
Definition feb1 (m : Z) : Z :=
  1706745600000000000 + m * Strptime.ns_per_minute.

Definition cet (v : Z) : datetime := Stamp v (Some "CET"%string).

(** The end of the exclusion of a row once the sum is made: the end of the
    opening with the duration added, [NaT] where there is none. *)
Definition exclusion_end (delta : Z) (row : OpeningRecord) : datetime :=
  match dt_add (of_cell (end_opening row)) delta with
  | Ok e => e
  | Raise _ => NaT
  end.

(** The rows of the table that give an interval, and the interval of a
    row. *)
Definition selects (start_ts end_ts : datetime) (delta hive : Z)
  (row : OpeningRecord) : bool :=
  (hive_nb row =? hive)
  && overlaps start_ts end_ts (of_cell (start_opening row))
       (exclusion_end delta row).

Definition clipped (start_ts end_ts : datetime) (delta : Z)
  (row : OpeningRecord) : interval :=
  {| start := py_max (of_cell (start_opening row)) start_ts;
     end_ := py_min (exclusion_end delta row) end_ts |}.

(** The recovery time fits a duration, and the start and the end of every
    opening of the hive, and its end with the recovery added, are a day
    inside the range. *)
Definition in_bounds (df : list OpeningRecord) (hive recovery_time : Z) : Prop :=
  -9223372036854775807 <= recovery_time * 60000000000 <= 9223372036854775807
  /\ (forall row so,
        In row df -> hive_nb row = hive -> start_opening row = Some so ->
        -9223285636854775807 <= so <= 9223285636854775807)
  /\ (forall row eo,
        In row df -> hive_nb row = hive -> end_opening row = Some eo ->
        -9223285636854775807 <= eo <= 9223285636854775807
        /\ -9223285636854775807 <= eo + recovery_time * 60000000000
           <= 9223285636854775807).

(** The recovery time fits a duration and every sum the mask makes for
    the hive fits the range: nothing raises. *)
Definition sums_fit (df : list OpeningRecord) (hive recovery_time : Z) : Prop :=
  -9223372036854775807 <= recovery_time * 60000000000 <= 9223372036854775807
  /\ forall row eo,
      In row df -> hive_nb row = hive -> end_opening row = Some eo ->
      -9223372036854775808 <= eo + recovery_time * 60000000000
      <= 9223372036854775807.

(** The rows of the table that come from one row of the log: one for each
    digit of its hive token, all with the timestamps and the comment of the
    row. *)
Definition records_of (r : Loader.timed_row) : list OpeningRecord :=
  match Loader.extract_hive_digits (Loader.hives (Loader.t_raw r)) with
  | Some digits =>
      map (fun c => mkOpening (Loader.t_start r) (Loader.t_end r)
                      (PyStr.digit_value c)
                      (Loader.raw_comment (Loader.t_raw r)))
        (list_ascii_of_string digits)
  | None => []
  end.

(** How the timestamps of a row come from its text: each is parsed as a
    wall-clock time and localised; the end is [NaT] when the time has no
    second part. *)
Definition start_from (tz_localize : Z -> result Z) (row : Loader.raw_row)
  (wall : Z) (c : cell) : Prop :=
  exists text t,
    Loader.start_text row = Some text
    /\ Strptime.strptime text = Ok wall
    /\ tz_localize wall = Ok t
    /\ c = Some t.

Definition end_from (tz_localize : Z -> result Z) (row : Loader.raw_row)
  (wall : option Z) (c : cell) : Prop :=
  match wall with
  | None => Loader.end_text row = None /\ c = None
  | Some w =>
      exists text t,
        Loader.end_text row = Some text
        /\ Strptime.strptime text = Ok w
        /\ tz_localize w = Ok t
        /\ c = Some t
  end.

Definition timed_from (tz_localize : Z -> result Z) (row : Loader.raw_row)
  (r : Loader.timed_row) : Prop :=
  Loader.t_raw r = row
  /\ (exists wall, start_from tz_localize row wall (Loader.t_start r))
  /\ (exists wall, end_from tz_localize row wall (Loader.t_end r)).

(** The overlap test and the field count in the words of the
    specification, to compare with the code. *)
Module AsStated.

(** The three conditions on a record that opens at [so] and whose
    exclusion ends at [ee], for the window from [start_ts] to [end_ts];
    the second is strict on both sides. *)
Definition contributes (start_ts end_ts so ee : Z) : Prop :=
  (start_ts <= so < end_ts)
  \/ (start_ts < ee < end_ts)
  \/ (so <= start_ts /\ ee >= end_ts).

(** The number of maximal runs of characters that are not whitespace. *)
Fixpoint runs (in_field : bool) (s : string) : nat :=
  match s with
  | EmptyString => O
  | String c rest =>
      if PyStr.isspace c then runs false rest
      else ((if in_field then 0 else 1) + runs true rest)%nat
  end.

(** The line split into at most four whitespace-delimited fields. *)
Definition whitespace_fields (line : string) : nat := Nat.min 4 (runs false line).

End AsStated.

(** * Properties *)

Lemma bind_ok {A B : Type} (m : result A) (k : A -> result B) (b : B) :
  bind m k = Ok b -> exists a, m = Ok a /\ k a = Ok b.
Proof.
  destruct m as [a | e]; simpl; intros H; [exists a; auto | discriminate].
Qed.

(** Turns the boolean comparisons of a goal into arithmetic. *)
Ltac to_arith :=
  unfold dt_lt, dt_le, dt_gt, dt_ge, compare_with in *; simpl in *;
  repeat rewrite ?Z.gtb_ltb, ?Z.geb_leb in *;
  repeat rewrite ?andb_true_iff, ?orb_true_iff, ?negb_true_iff,
    ?andb_false_iff, ?orb_false_iff,
    ?Z.ltb_lt, ?Z.leb_le, ?Z.ltb_ge, ?Z.leb_gt, ?Z.eqb_eq, ?Z.eqb_neq in *.

(** ** Durations and sums *)

Lemma Timedelta_value (r d : Z) :
  Timedelta r = Ok d <->
  d = r * 60000000000
  /\ -9223372036854775807 <= r * 60000000000 <= 9223372036854775807.
Proof.
  unfold Timedelta, Strptime.ns_per_minute. cbv zeta.
  change (- i8max) with (-9223372036854775807).
  change i8max with 9223372036854775807.
  match goal with
  | |- context [if ?c then _ else _] => destruct c eqn:E
  end.
  - apply andb_true_iff in E. destruct E as [E1 E2].
    apply Z.leb_le in E1, E2. split.
    + intros H. injection H as <-. lia.
    + intros [-> _]. reflexivity.
  - apply andb_false_iff in E. split; [discriminate |].
    intros [_ H]. destruct E as [E | E]; apply Z.leb_gt in E; lia.
Qed.

Lemma Timedelta_raises (r : Z) (e : exn) :
  Timedelta r = Raise e ->
  e = OutOfBoundsTimedelta
  /\ ~ (-9223372036854775807 <= r * 60000000000 <= 9223372036854775807).
Proof.
  intros H. split.
  - unfold Timedelta in H. cbv zeta in H.
    destruct (_ && _) in H; [discriminate | congruence].
  - intros B.
    assert (X : Timedelta r = Ok (r * 60000000000))
      by (apply Timedelta_value; auto).
    congruence.
Qed.

(** The sum on a cell that holds an instant. *)
Lemma dt_add_some (v d : Z) (tz : option string) (y : datetime) :
  dt_add (Stamp v tz) d = Ok y <->
  -9223372036854775808 <= v + d <= 9223372036854775807
  /\ y = (if v + d =? -9223372036854775808 then NaT else Stamp (v + d) tz).
Proof.
  unfold dt_add. cbv zeta.
  change i8min with (-9223372036854775808).
  change i8max with 9223372036854775807.
  destruct ((v + d <? -9223372036854775808) || (9223372036854775807 <? v + d))
    eqn:E.
  - apply orb_true_iff in E. split; [discriminate |].
    intros [B _]. destruct E as [E | E]; apply Z.ltb_lt in E; lia.
  - apply orb_false_iff in E. destruct E as [E1 E2].
    apply Z.ltb_ge in E1, E2. split.
    + intros H. split; [lia |].
      destruct (v + d =? -9223372036854775808); congruence.
    + intros [_ ->]. destruct (v + d =? -9223372036854775808); reflexivity.
Qed.

Lemma dt_add_raises (t : datetime) (d : Z) (e : exn) :
  dt_add t d = Raise e -> e = OverflowError.
Proof.
  destruct t as [| v tz]; simpl; [discriminate |].
  destruct (_ || _); [congruence |].
  destruct (_ =? _); discriminate.
Qed.

Lemma exclusion_end_none (d : Z) (row : OpeningRecord) :
  end_opening row = None ->
  dt_add (of_cell (end_opening row)) d = Ok NaT
  /\ exclusion_end d row = NaT.
Proof. unfold exclusion_end. intros ->. split; reflexivity. Qed.

Lemma exclusion_end_some (d eo : Z) (row : OpeningRecord) :
  end_opening row = Some eo ->
  -9223372036854775808 < eo + d <= 9223372036854775807 ->
  dt_add (of_cell (end_opening row)) d = Ok (Stamp (eo + d) (Some "CET"%string))
  /\ exclusion_end d row = Stamp (eo + d) (Some "CET"%string).
Proof.
  unfold exclusion_end. intros -> B.
  assert (H : dt_add (of_cell (Some eo)) d = Ok (Stamp (eo + d) (Some "CET"%string))).
  { apply dt_add_some. split; [lia |].
    destruct (eo + d =? -9223372036854775808) eqn:E; [| reflexivity].
    apply Z.eqb_eq in E. lia. }
  rewrite H. split; reflexivity.
Qed.

(** Whatever the sum gives, [exclusion_end] names it. *)
Lemma exclusion_end_ok (d : Z) (row : OpeningRecord) (y : datetime) :
  dt_add (of_cell (end_opening row)) d = Ok y -> exclusion_end d row = y.
Proof. unfold exclusion_end. intros ->. reflexivity. Qed.

(** ** The steps of [get_invalid_times] *)

Lemma mapM_ok_map {A B : Type} (f : A -> result B) (g : A -> B) (l : list A) :
  (forall x, In x l -> f x = Ok (g x)) -> mapM f l = Ok (map g l).
Proof.
  induction l as [| x rest IH]; simpl; intros H; [reflexivity |].
  rewrite (H x (or_introl eq_refl)). simpl.
  rewrite IH; [reflexivity |]. intros y Hy. apply H. right. exact Hy.
Qed.

Lemma mapM_ok_each {A B : Type} (f : A -> result B) (l : list A) (out : list B) :
  mapM f l = Ok out -> forall x, In x l -> exists y, f x = Ok y.
Proof.
  revert out. induction l as [| a rest IH]; simpl; intros out H x Hx;
    [contradiction |].
  apply bind_ok in H. destruct H as (y & Hy & H).
  apply bind_ok in H. destruct H as (ys & Hys & _).
  destruct Hx as [<- | Hx]; [eauto | eapply IH; eassumption].
Qed.

(** The first element that raises decides the error. *)
Lemma mapM_raises {A B : Type} (f : A -> result B) (l : list A) (e : exn) :
  mapM f l = Raise e -> exists x, In x l /\ f x = Raise e.
Proof.
  induction l as [| a rest IH]; simpl; [discriminate |].
  destruct (f a) as [y | e'] eqn:E; simpl.
  - destruct (mapM f rest) as [ys | e'']; simpl; [discriminate |].
    intros H. injection H as <-.
    destruct (IH eq_refl) as (x & Hx & Ex). eauto.
  - intros H. injection H as <-. eauto.
Qed.

Lemma filter_combine_map {A B : Type} (g : A -> B) (p : A -> B -> bool)
  (l : list A) :
  map fst (filter (fun xy => p (fst xy) (snd xy)) (combine l (map g l)))
  = filter (fun x => p x (g x)) l.
Proof.
  induction l as [| x rest IH]; simpl; [reflexivity |].
  destruct (p x (g x)); simpl; rewrite IH; reflexivity.
Qed.

Lemma filter_twice {A : Type} (p q : A -> bool) (l : list A) :
  filter q (filter p l) = filter (fun x => p x && q x) l.
Proof.
  induction l as [| x rest IH]; simpl; [reflexivity |].
  destruct (p x); simpl; [destruct (q x) |]; rewrite IH; reflexivity.
Qed.

Lemma aware_inv (t : datetime) :
  is_aware t = true -> exists v tz, t = Stamp v (Some tz).
Proof.
  destruct t as [| v [tz |]]; simpl; try discriminate; eauto.
Qed.

Section QueryFacts.

Variable df : list OpeningRecord.

(** The column of ends with the duration added, once the sums are made. *)
Lemma column_ends (d : Z) (rows : list OpeningRecord) (ends : list datetime) :
  mapM (fun row => dt_add (of_cell (end_opening row)) d) rows = Ok ends ->
  ends = map (exclusion_end d) rows.
Proof.
  revert ends. induction rows as [| row rest IH]; simpl; intros ends H.
  - injection H as <-. reflexivity.
  - apply bind_ok in H. destruct H as (y & Hy & H).
    apply bind_ok in H. destruct H as (ys & Hys & H).
    injection H as <-. rewrite (exclusion_end_ok _ _ _ Hy), (IH _ Hys).
    reflexivity.
Qed.

(** On aware timestamps the function makes the duration, makes the sums
    for the rows of the hive, and, when neither raises, returns the
    intervals of the rows the mask selects, in the order of the table. *)
Lemma get_invalid_times_steps (sv ev : Z) (stz etz : string) (h r : Z) :
  get_invalid_times df (Stamp sv (Some stz)) (Stamp ev (Some etz)) h r
  = (delta <- Timedelta r ;;
     _ <- mapM (fun row => dt_add (of_cell (end_opening row)) delta)
            (filter (fun row => hive_nb row =? h) df) ;;
     Ok (map (clipped (Stamp sv (Some stz)) (Stamp ev (Some etz)) delta)
           (filter (selects (Stamp sv (Some stz)) (Stamp ev (Some etz)) delta h)
              df))).
Proof.
  unfold get_invalid_times. cbn [is_aware negb].
  destruct (Timedelta r) as [d | e]; [| reflexivity]. cbn [bind].
  set (rows := filter (fun row => hive_nb row =? h) df).
  destruct (mapM (fun row => dt_add (of_cell (end_opening row)) d) rows)
    as [ends | e] eqn:E; [| reflexivity].
  cbn [bind].
  pose proof (mapM_ok_each _ _ _ E) as Heach.
  apply column_ends in E. subst ends.
  rewrite (filter_combine_map (exclusion_end d)
             (fun row e => overlaps (Stamp sv (Some stz)) (Stamp ev (Some etz))
                             (of_cell (start_opening row)) e)).
  subst rows. rewrite filter_twice.
  apply mapM_ok_map. intros row Hrow.
  apply filter_In in Hrow. destruct Hrow as [Hin Hsel].
  apply andb_true_iff in Hsel. destruct Hsel as [Hh _].
  destruct (Heach row) as (y & Hy).
  { apply filter_In. auto. }
  unfold exclusion, clipped. rewrite Hy, (exclusion_end_ok _ _ _ Hy).
  reflexivity.
Qed.

Lemma get_invalid_times_ok_inv (sv ev : Z) (stz etz : string) (h r : Z)
  (out : list interval) :
  get_invalid_times df (Stamp sv (Some stz)) (Stamp ev (Some etz)) h r = Ok out ->
  exists d,
    Timedelta r = Ok d
    /\ (forall row, In row df -> hive_nb row = h ->
          dt_add (of_cell (end_opening row)) d = Ok (exclusion_end d row))
    /\ out = map (clipped (Stamp sv (Some stz)) (Stamp ev (Some etz)) d)
               (filter (selects (Stamp sv (Some stz)) (Stamp ev (Some etz)) d h)
                  df).
Proof.
  rewrite get_invalid_times_steps. intros H.
  apply bind_ok in H. destruct H as (d & Hd & H).
  apply bind_ok in H. destruct H as (ends & Hends & H).
  injection H as <-. exists d. split; [exact Hd |]. split; [| reflexivity].
  intros row Hin Hh.
  destruct (mapM_ok_each _ _ _ Hends row) as (y & Hy).
  { apply filter_In. split; [exact Hin | apply Z.eqb_eq, Hh]. }
  rewrite Hy, (exclusion_end_ok _ _ _ Hy). reflexivity.
Qed.

Lemma get_invalid_times_ok_intro (sv ev : Z) (stz etz : string) (h r d : Z) :
  Timedelta r = Ok d ->
  (forall row, In row df -> hive_nb row = h ->
     exists y, dt_add (of_cell (end_opening row)) d = Ok y) ->
  get_invalid_times df (Stamp sv (Some stz)) (Stamp ev (Some etz)) h r
  = Ok (map (clipped (Stamp sv (Some stz)) (Stamp ev (Some etz)) d)
          (filter (selects (Stamp sv (Some stz)) (Stamp ev (Some etz)) d h) df)).
Proof.
  intros Hd Hrows. rewrite get_invalid_times_steps, Hd. cbn [bind].
  rewrite (mapM_ok_map _ (exclusion_end d)); [reflexivity |].
  intros row Hrow. apply filter_In in Hrow. destruct Hrow as [Hin Hh].
  apply Z.eqb_eq in Hh. destruct (Hrows row Hin Hh) as (y & Hy).
  rewrite Hy, (exclusion_end_ok _ _ _ Hy). reflexivity.
Qed.

(** Inside the bounds every sum is made and is the instant expected. *)
Lemma in_bounds_rows (h r : Z) :
  in_bounds df h r ->
  Timedelta r = Ok (r * 60000000000)
  /\ forall row, In row df -> hive_nb row = h ->
       (end_opening row = None /\ exclusion_end (r * 60000000000) row = NaT
        \/ exists eo, end_opening row = Some eo
                      /\ exclusion_end (r * 60000000000) row
                         = Stamp (eo + r * 60000000000) (Some "CET"%string))
       /\ exists y, dt_add (of_cell (end_opening row)) (r * 60000000000) = Ok y.
Proof.
  intros (Hr & _ & Hends). split; [apply Timedelta_value; auto |].
  intros row Hin Hh.
  destruct (end_opening row) as [eo |] eqn:E.
  - destruct (Hends row eo Hin Hh E) as [_ Hrows].
    destruct (exclusion_end_some (r * 60000000000) eo row E) as [A B];
      [lia |].
    rewrite E in A. split; [right; exists eo; auto | eauto].
  - destruct (exclusion_end_none (r * 60000000000) row E) as [A B].
    rewrite E in A. split; [left; auto | eauto].
Qed.

Lemma get_invalid_times_in_bounds (sv ev : Z) (stz etz : string) (h r : Z) :
  in_bounds df h r ->
  get_invalid_times df (Stamp sv (Some stz)) (Stamp ev (Some etz)) h r
  = Ok (map (clipped (Stamp sv (Some stz)) (Stamp ev (Some etz))
               (r * 60000000000))
          (filter (selects (Stamp sv (Some stz)) (Stamp ev (Some etz))
                     (r * 60000000000) h) df)).
Proof.
  intros B. destruct (in_bounds_rows h r B) as [Hd Hrows].
  apply get_invalid_times_ok_intro; [exact Hd |].
  intros row Hin Hh. apply (Hrows row Hin Hh).
Qed.

(** What the mask says about a row, from its cells and the end of its
    exclusion. *)
Lemma overlaps_spec (sv ev : Z) (stz etz : option string)
  (row : OpeningRecord) (e : datetime) :
  overlaps (Stamp sv stz) (Stamp ev etz) (of_cell (start_opening row)) e = true <->
  (exists so, start_opening row = Some so /\ sv <= so < ev)
  \/ (exists x, instant e = Some x /\ sv < x <= ev)
  \/ (exists so x, start_opening row = Some so /\ instant e = Some x
                   /\ so <= sv /\ x >= ev).
Proof.
  unfold overlaps.
  destruct (start_opening row) as [so |], e as [| x xz];
    to_arith; (split; intros H).
  all: repeat match goal with
    | H : _ \/ _ |- _ => destruct H
    | H : exists _, _ |- _ => destruct H
    | H : _ /\ _ |- _ => destruct H
    | H : Some _ = Some _ |- _ => injection H as <-
    | H : None = Some _ |- _ => discriminate H
    | H : false = true |- _ => discriminate H
    end.
  all: try lia.
  all: try solve [left; eexists; split; [reflexivity | lia]].
  all: try solve [right; left; eexists; split; [reflexivity | lia]].
  all: solve [right; right; eexists; eexists; repeat split; lia].
Qed.

(** The rows selected inside the bounds, by the arithmetic of their
    cells. *)
Lemma selects_spec (sv ev : Z) (stz etz : string) (h r : Z) (row : OpeningRecord) :
  in_bounds df h r -> In row df ->
  (selects (Stamp sv (Some stz)) (Stamp ev (Some etz)) (r * 60000000000) h row
   = true <->
   hive_nb row = h
   /\ ((exists so, start_opening row = Some so /\ sv <= so < ev)
       \/ (exists eo, end_opening row = Some eo
                      /\ sv < eo + r * 60000000000 <= ev)
       \/ (exists so eo,
             start_opening row = Some so /\ end_opening row = Some eo
             /\ so <= sv /\ eo + r * 60000000000 >= ev))).
Proof.
  intros B Hin. unfold selects.
  rewrite andb_true_iff, Z.eqb_eq, overlaps_spec.
  split; intros [Hh H]; (split; [exact Hh |]);
    destruct (proj2 (in_bounds_rows h r B) row Hin Hh) as [[[E X] | (eo & E & X)] _];
    rewrite X in *; simpl in *.
  - destruct H as [H | [(x & Ex & _) | (so & x & _ & Ex & _)]].
    + left; exact H.
    + discriminate Ex.
    + discriminate Ex.
  - destruct H as [H | [(x & Ex & H) | (so & x & Es & Ex & H)]].
    + left; exact H.
    + injection Ex as <-. right; left. eauto.
    + injection Ex as <-. right; right. exists so, eo. auto.
  - destruct H as [H | [(eo & Ee & _) | (so & eo & _ & Ee & _)]].
    + left; exact H.
    + congruence.
    + congruence.
  - destruct H as [H | [(eo' & Ee & H) | (so & eo' & Es & Ee & H)]].
    + left; exact H.
    + assert (eo' = eo) by congruence. subst eo'. right; left. eauto.
    + assert (eo' = eo) by congruence. subst eo'.
      right; right. exists so, (eo + r * 60000000000). auto.
Qed.

(** C1, as the code has it: for aware [start_ts] and [end_ts] and a
    recovery time inside the bounds, the result holds one interval for each
    row of the table, in the order of the table, whose hive is the one
    asked for and which meets one of the three conditions of the mask; the
    second condition is [start_ts < end_opening + recovery <= end_ts],
    inclusive at [end_ts].  No other row gives an interval. *)
Theorem get_invalid_times_selection (sv ev : Z) (stz etz : string) (h r : Z) :
  in_bounds df h r ->
  exists selected : OpeningRecord -> bool,
    get_invalid_times df (Stamp sv (Some stz)) (Stamp ev (Some etz)) h r
    = Ok (map (clipped (Stamp sv (Some stz)) (Stamp ev (Some etz))
                 (r * 60000000000))
            (filter selected df))
    /\ forall row,
        In row df ->
        (selected row = true <->
         hive_nb row = h
         /\ ((exists so, start_opening row = Some so /\ sv <= so < ev)
             \/ (exists eo, end_opening row = Some eo
                            /\ sv < eo + r * 60000000000 <= ev)
             \/ (exists so eo,
                   start_opening row = Some so /\ end_opening row = Some eo
                   /\ so <= sv /\ eo + r * 60000000000 >= ev))).
Proof.
  intros B. eexists. split; [apply get_invalid_times_in_bounds, B |].
  intros row Hin. apply selects_spec; assumption.
Qed.

End QueryFacts.

Section IntervalFacts.

Variable df : list OpeningRecord.

(** What the interval of a row of the hive is, inside the bounds. *)
Lemma clipped_spec (sv ev : Z) (stz etz : string) (h r : Z) (row : OpeningRecord) :
  in_bounds df h r -> In row df -> hive_nb row = h ->
  let iv := clipped (Stamp sv (Some stz)) (Stamp ev (Some etz))
              (r * 60000000000) row in
  start iv = py_max (of_cell (start_opening row)) (Stamp sv (Some stz))
  /\ (forall so, start_opening row = Some so ->
        instant (start iv) = Some (Z.max so sv))
  /\ (forall eo, end_opening row = Some eo ->
        instant (end_ iv) = Some (Z.min (eo + r * 60000000000) ev))
  /\ (end_opening row = None -> end_ iv = NaT).
Proof.
  intros B Hin Hh iv. subst iv. unfold clipped. simpl.
  split; [reflexivity |]. split; [| split].
  - intros so E. rewrite E. simpl.
    unfold py_max, dt_gt, compare_with. rewrite Z.gtb_ltb.
    destruct (so <? sv) eqn:C; simpl; f_equal; to_arith; lia.
  - intros eo E.
    destruct (proj2 (in_bounds_rows df h r B) row Hin Hh)
      as [[[E' _] | (eo' & E' & X)] _]; [congruence |].
    assert (eo' = eo) by congruence. subst eo'. rewrite X.
    unfold py_min, dt_lt, compare_with.
    destruct (ev <? eo + r * 60000000000) eqn:C; simpl; f_equal; to_arith; lia.
  - intros E.
    destruct (proj2 (in_bounds_rows df h r B) row Hin Hh)
      as [[[_ X] | (eo' & E' & _)] _]; [| congruence].
    rewrite X. reflexivity.
Qed.

(** A timestamp of the window inside the exclusion of a row is inside
    the interval of the row. *)
Lemma inside_clipped (sv ev tv : Z) (stz etz : string) (ttz : option string)
  (h r : Z) (row : OpeningRecord) (so eo : Z) :
  in_bounds df h r -> In row df -> hive_nb row = h ->
  start_opening row = Some so -> end_opening row = Some eo ->
  sv <= tv <= ev -> so <= tv <= eo + r * 60000000000 ->
  inside (Stamp tv ttz)
    (clipped (Stamp sv (Some stz)) (Stamp ev (Some etz)) (r * 60000000000) row)
  = true.
Proof.
  intros B Hin Hh Es Ee Hw Hc.
  destruct (proj2 (in_bounds_rows df h r B) row Hin Hh)
    as [[[E' _] | (eo' & E' & X)] _]; [congruence |].
  assert (eo' = eo) by congruence. subst eo'.
  unfold inside, clipped. simpl. rewrite Es, X. simpl.
  unfold py_max, py_min, dt_gt, dt_lt, dt_le, compare_with.
  rewrite Z.gtb_ltb.
  destruct (so <? sv) eqn:C1, (ev <? eo + r * 60000000000) eqn:C2; simpl;
    to_arith; lia.
Qed.

(** C4: inside the bounds each selected row gives exactly one interval,
    from the later of its start and [start_ts] to the earlier of its end
    with the recovery added, [recovery * 60000000000] nanoseconds, and
    [end_ts]; the intervals are not merged, so a timestamp of the window
    inside the exclusion of two selected rows lies in the interval of
    each. *)
Theorem get_invalid_times_one_interval_per_row
  (sv ev : Z) (stz etz : string) (h r : Z) :
  in_bounds df h r ->
  let start_ts := Stamp sv (Some stz) in
  let end_ts := Stamp ev (Some etz) in
  let contributing :=
    filter (selects start_ts end_ts (r * 60000000000) h) df in
  exists out,
    get_invalid_times df start_ts end_ts h r = Ok out
    /\ List.length out = List.length contributing
    /\ (forall i row, nth_error contributing i = Some row ->
          exists iv, nth_error out i = Some iv
            /\ start iv = py_max (of_cell (start_opening row)) start_ts
            /\ (forall so, start_opening row = Some so ->
                  instant (start iv) = Some (Z.max so sv))
            /\ (forall eo, end_opening row = Some eo ->
                  instant (end_ iv) = Some (Z.min (eo + r * 60000000000) ev))
            /\ (end_opening row = None -> end_ iv = NaT))
    /\ (forall i j row1 row2 tv ttz,
          i <> j ->
          nth_error contributing i = Some row1 ->
          nth_error contributing j = Some row2 ->
          sv <= tv <= ev ->
          (forall row, row = row1 \/ row = row2 ->
             exists so eo,
               start_opening row = Some so /\ end_opening row = Some eo
               /\ so <= tv <= eo + r * 60000000000) ->
          exists iv1 iv2,
            nth_error out i = Some iv1 /\ nth_error out j = Some iv2
            /\ inside (Stamp tv ttz) iv1 = true
            /\ inside (Stamp tv ttz) iv2 = true).
Proof.
  intros B start_ts end_ts contributing.
  exists (map (clipped start_ts end_ts (r * 60000000000)) contributing).
  split; [apply get_invalid_times_in_bounds, B |].
  split; [apply length_map |].
  assert (Hnth : forall i row, nth_error contributing i = Some row ->
            nth_error (map (clipped start_ts end_ts (r * 60000000000))
                         contributing) i
            = Some (clipped start_ts end_ts (r * 60000000000) row)).
  { intros i row H. rewrite nth_error_map, H. reflexivity. }
  assert (Hrow : forall i row, nth_error contributing i = Some row ->
            In row df /\ hive_nb row = h).
  { intros i row H. apply nth_error_In in H. apply filter_In in H.
    destruct H as [Hin Hsel]. unfold selects in Hsel.
    apply andb_true_iff in Hsel. destruct Hsel as [Hh _].
    apply Z.eqb_eq in Hh. auto. }
  split.
  - intros i row H. destruct (Hrow i row H) as [Hin Hh].
    eexists. split; [apply Hnth, H |].
    apply (clipped_spec sv ev stz etz h r row B Hin Hh).
  - intros i j row1 row2 tv ttz _ H1 H2 Hw Hc.
    destruct (Hrow i row1 H1) as [Hin1 Hh1].
    destruct (Hrow j row2 H2) as [Hin2 Hh2].
    destruct (Hc row1 (or_introl eq_refl)) as (so1 & eo1 & S1 & E1 & C1).
    destruct (Hc row2 (or_intror eq_refl)) as (so2 & eo2 & S2 & E2 & C2).
    do 2 eexists. split; [apply Hnth, H1 |]. split; [apply Hnth, H2 |].
    split; eapply inside_clipped; eassumption.
Qed.

(** C10: with [start_ts] not after [end_ts], a recovery time that is not
    negative and a table whose rows all end at or after their start, at
    instants the range holds, every interval returned starts at or before
    its end; and inside the bounds intervals are returned. *)
Theorem get_invalid_times_well_formed (start_ts end_ts : datetime) (h r : Z) :
  is_aware start_ts = true ->
  is_aware end_ts = true ->
  dt_le start_ts end_ts = true ->
  0 <= r ->
  Forall (fun row => dt_ge (of_cell (end_opening row))
                       (of_cell (start_opening row)) = true) df ->
  Forall (fun row => forall eo, end_opening row = Some eo ->
                       -9223372036854775808 < eo) df ->
  (in_bounds df h r ->
   exists out, get_invalid_times df start_ts end_ts h r = Ok out)
  /\ (forall out,
        get_invalid_times df start_ts end_ts h r = Ok out ->
        Forall (fun iv => dt_le (start iv) (end_ iv) = true) out).
Proof.
  intros Hs He Hse Hr Hdf Hrep.
  destruct (aware_inv _ Hs) as (sv & stz & ->).
  destruct (aware_inv _ He) as (ev & etz & ->).
  split.
  - intros B. eexists. apply get_invalid_times_in_bounds, B.
  - intros out Hout.
    apply get_invalid_times_ok_inv in Hout.
    destruct Hout as (d & Hd & Hsum & ->).
    apply Timedelta_value in Hd. destruct Hd as [-> Hd].
    apply Forall_forall. intros iv Hiv.
    apply in_map_iff in Hiv. destruct Hiv as (row & <- & Hrow).
    apply filter_In in Hrow. destruct Hrow as [Hin Hsel].
    unfold selects in Hsel. apply andb_true_iff in Hsel.
    destruct Hsel as [Hh Hov]. apply Z.eqb_eq in Hh.
    rewrite Forall_forall in Hdf, Hrep.
    specialize (Hdf row Hin). specialize (Hrep row Hin).
    specialize (Hsum row Hin Hh).
    destruct (start_opening row) as [so |] eqn:Es,
      (end_opening row) as [eo |] eqn:Ee; simpl in Hdf; try discriminate.
    specialize (Hrep eo eq_refl).
    apply dt_add_some in Hsum. destruct Hsum as [Hrange Hval].
    destruct (eo + r * 60000000000 =? -9223372036854775808) eqn:C.
    { apply Z.eqb_eq in C. lia. }
    unfold clipped. simpl. rewrite Es, Hval.
    unfold overlaps in Hov. rewrite ?Es, Hval in Hov.
    unfold py_max, py_min, dt_gt, dt_lt, dt_le, dt_ge, compare_with in *;
      simpl in *.
    rewrite Z.gtb_ltb.
    destruct (so <? sv) eqn:E1, (ev <? eo + r * 60000000000) eqn:E2; simpl;
      to_arith; lia.
Qed.

End IntervalFacts.

(** C9: a row of another hive changes no answer for hive [h]; the table
    with the row and the table without it give the same result, or the
    same error, for each of the three queries. *)
Theorem hive_isolation (before after : list OpeningRecord) (row : OpeningRecord)
  (h r : Z) :
  hive_nb row <> h ->
  (forall start_ts end_ts,
      get_invalid_times (before ++ row :: after) start_ts end_ts h r
      = get_invalid_times (before ++ after) start_ts end_ts h r)
  /\ (forall timestamps,
        filter_timestamps (before ++ row :: after) timestamps h r
        = filter_timestamps (before ++ after) timestamps h r)
  /\ (forall timestamp,
        valid_ts (before ++ row :: after) timestamp h r
        = valid_ts (before ++ after) timestamp h r).
Proof.
  intros Hne.
  assert (E : filter (fun x => hive_nb x =? h) (before ++ row :: after)
              = filter (fun x => hive_nb x =? h) (before ++ after)).
  { rewrite !filter_app. cbn [filter].
    apply Z.eqb_neq in Hne. rewrite Hne. reflexivity. }
  assert (G : forall start_ts end_ts,
             get_invalid_times (before ++ row :: after) start_ts end_ts h r
             = get_invalid_times (before ++ after) start_ts end_ts h r).
  { intros start_ts end_ts. unfold get_invalid_times. rewrite E. reflexivity. }
  assert (F : forall timestamps,
             filter_timestamps (before ++ row :: after) timestamps h r
             = filter_timestamps (before ++ after) timestamps h r).
  { intros timestamps. unfold filter_timestamps.
    destruct (negb (forallb is_aware timestamps)); [reflexivity |].
    destruct (min_of (sorted timestamps)); [| reflexivity].
    destruct (max_of (sorted timestamps)); [| reflexivity].
    cbn [bind]. rewrite G. reflexivity. }
  repeat split; auto.
  intros timestamp. unfold valid_ts. rewrite F. reflexivity.
Qed.

(** ** [sorted], [min] and [max] *)

Lemma dt_le_trans (a b c : datetime) :
  dt_le a b = true -> dt_le b c = true -> dt_le a c = true.
Proof.
  destruct a, b, c; to_arith; try discriminate; lia.
Qed.

Lemma dt_lt_false_le (x y : datetime) :
  is_aware x = true -> is_aware y = true ->
  dt_lt y x = false -> dt_le x y = true.
Proof.
  destruct x as [| xv [xz |]], y as [| yv [yz |]]; simpl; try discriminate.
  intros _ _. to_arith. lia.
Qed.

Lemma dt_lt_le (x y : datetime) : dt_lt x y = true -> dt_le x y = true.
Proof. destruct x, y; to_arith; try discriminate; lia. Qed.

Lemma insert_sorted_perm (x : datetime) (l : list datetime) :
  Permutation (insert_sorted x l) (x :: l).
Proof.
  induction l as [| y rest IH]; simpl; [reflexivity |].
  destruct (dt_lt y x); [| reflexivity].
  rewrite IH. apply perm_swap.
Qed.

Lemma sorted_perm (l : list datetime) : Permutation (sorted l) l.
Proof.
  induction l as [| x rest IH]; simpl; [reflexivity |].
  rewrite insert_sorted_perm. apply perm_skip, IH.
Qed.

Lemma insert_sorted_ascending (x : datetime) (l : list datetime) :
  is_aware x = true -> Forall (fun t => is_aware t = true) l ->
  ascending l -> ascending (insert_sorted x l).
Proof.
  intros Hx. unfold ascending.
  induction l as [| y rest IH]; intros Hl Hs; simpl.
  - repeat constructor.
  - inversion Hl as [| ? ? Hy Hrest]; subst.
    apply StronglySorted_inv in Hs. destruct Hs as [Hs Hall].
    destruct (dt_lt y x) eqn:E.
    + constructor; [apply IH; assumption |].
      eapply Permutation_Forall; [symmetry; apply insert_sorted_perm |].
      constructor; [apply dt_lt_le, E | exact Hall].
    + pose proof (dt_lt_false_le x y Hx Hy E) as Hxy.
      constructor; [constructor; assumption |].
      constructor; [exact Hxy |].
      eapply Forall_impl; [| exact Hall].
      intros z Hz. eapply dt_le_trans; eassumption.
Qed.

Lemma sorted_aware (l : list datetime) :
  Forall (fun t => is_aware t = true) l ->
  Forall (fun t => is_aware t = true) (sorted l).
Proof.
  intros H. eapply Permutation_Forall; [symmetry; apply sorted_perm | exact H].
Qed.

Lemma sorted_ascending (l : list datetime) :
  Forall (fun t => is_aware t = true) l -> ascending (sorted l).
Proof.
  induction l as [| x rest IH]; intros H; simpl.
  - constructor.
  - inversion H; subst.
    apply insert_sorted_ascending; auto using sorted_aware.
Qed.

Lemma forallb_aware (l : list datetime) :
  forallb is_aware l = true <-> Forall (fun t => is_aware t = true) l.
Proof. rewrite forallb_forall, Forall_forall. reflexivity. Qed.

(** [min] of a list of aware timestamps is one of them and none is
    before it. *)
Lemma fold_min_spec (rest : list datetime) (x : datetime) :
  is_aware x = true -> Forall (fun t => is_aware t = true) rest ->
  let m := fold_left py_min rest x in
  is_aware m = true /\ In m (x :: rest)
  /\ Forall (fun t => dt_le m t = true) (x :: rest).
Proof.
  revert x. induction rest as [| y rest IH]; intros x Hx Hrest; simpl.
  - repeat split; auto.
    constructor; [| constructor].
    destruct x as [| v [z |]]; try discriminate. to_arith. lia.
  - inversion Hrest as [| ? ? Hy Hr]; subst.
    assert (Hm : is_aware (py_min x y) = true)
      by (unfold py_min; destruct (dt_lt y x); assumption).
    destruct (IH (py_min x y) Hm Hr) as (A & B & C).
    split; [exact A |]. split.
    + destruct B as [B | B]; [| right; right; exact B].
      rewrite <- B. unfold py_min. destruct (dt_lt y x); auto.
    + inversion C as [| ? ? C1 C2]; subst.
      assert (dt_le (py_min x y) x = true /\ dt_le (py_min x y) y = true)
        as [Lx Ly].
      { unfold py_min.
        destruct x as [| xv [xz |]], y as [| yv [yz |]]; try discriminate.
        unfold dt_lt, compare_with. destruct (yv <? xv) eqn:E; to_arith; lia. }
      constructor; [eapply dt_le_trans; eassumption |].
      constructor; [eapply dt_le_trans; eassumption | exact C2].
Qed.

(** [max] of a list of aware timestamps is one of them and none is after
    it. *)
Lemma fold_max_spec (rest : list datetime) (x : datetime) :
  is_aware x = true -> Forall (fun t => is_aware t = true) rest ->
  let m := fold_left py_max rest x in
  is_aware m = true /\ In m (x :: rest)
  /\ Forall (fun t => dt_le t m = true) (x :: rest).
Proof.
  revert x. induction rest as [| y rest IH]; intros x Hx Hrest; simpl.
  - repeat split; auto.
    constructor; [| constructor].
    destruct x as [| v [z |]]; try discriminate. to_arith. lia.
  - inversion Hrest as [| ? ? Hy Hr]; subst.
    assert (Hm : is_aware (py_max x y) = true)
      by (unfold py_max; destruct (dt_gt y x); assumption).
    destruct (IH (py_max x y) Hm Hr) as (A & B & C).
    split; [exact A |]. split.
    + destruct B as [B | B]; [| right; right; exact B].
      rewrite <- B. unfold py_max. destruct (dt_gt y x); auto.
    + inversion C as [| ? ? C1 C2]; subst.
      assert (dt_le x (py_max x y) = true /\ dt_le y (py_max x y) = true)
        as [Lx Ly].
      { unfold py_max.
        destruct x as [| xv [xz |]], y as [| yv [yz |]]; try discriminate.
        unfold dt_gt, compare_with. rewrite Z.gtb_ltb.
        destruct (xv <? yv) eqn:E; to_arith; lia. }
      constructor; [eapply dt_le_trans; eassumption |].
      constructor; [eapply dt_le_trans; eassumption | exact C2].
Qed.

Lemma filter_ascending (f : datetime -> bool) (l : list datetime) :
  ascending l -> ascending (filter f l).
Proof.
  unfold ascending. induction 1 as [| a l Hs IH Hall]; simpl.
  - constructor.
  - destruct (f a); [| exact IH].
    constructor; [exact IH |].
    apply Forall_forall. intros t Ht. apply filter_In in Ht.
    rewrite Forall_forall in Hall. apply Hall, Ht.
Qed.

Lemma filter_subsequence {A : Type} (f : A -> bool) (l : list A) :
  Subsequence (filter f l) l.
Proof.
  induction l as [| a l IH]; simpl; [constructor |].
  destruct (f a); constructor; exact IH.
Qed.


(** ** [filter_timestamps] and [valid_ts] *)

Section FilterFacts.

Variable df : list OpeningRecord.
Variables (h r : Z).

(** On a list of aware timestamps that is not empty the window runs from
    the earliest to the latest timestamp, and the result is the sorted list
    without the timestamps inside an interval of that window. *)
Lemma filter_timestamps_window (timestamps : list datetime) :
  forallb is_aware timestamps = true ->
  timestamps <> [] ->
  exists sv stz ev etz,
    min_of (sorted timestamps) = Ok (Stamp sv (Some stz))
    /\ max_of (sorted timestamps) = Ok (Stamp ev (Some etz))
    /\ (In (Stamp sv (Some stz)) timestamps
        /\ In (Stamp ev (Some etz)) timestamps)
    /\ (forall t, In t timestamps ->
          dt_le (Stamp sv (Some stz)) t = true
          /\ dt_le t (Stamp ev (Some etz)) = true)
    /\ filter_timestamps df timestamps h r
       = (invalid_times <-
            get_invalid_times df (Stamp sv (Some stz)) (Stamp ev (Some etz)) h r ;;
          Ok (filter (fun ts => negb (existsb (inside ts) invalid_times))
                (sorted timestamps))).
Proof.
  intros Haware Hne.
  pose proof (sorted_perm timestamps) as Hperm.
  assert (Hall : Forall (fun t => is_aware t = true) (sorted timestamps))
    by (apply sorted_aware, forallb_aware, Haware).
  unfold filter_timestamps. rewrite Haware. cbn [negb].
  destruct (sorted timestamps) as [| x rest] eqn:E.
  { apply Permutation_nil in Hperm. contradiction. }
  inversion Hall as [| ? ? Hx Hrest]; subst.
  destruct (fold_min_spec rest x Hx Hrest) as (A1 & B1 & C1).
  destruct (fold_max_spec rest x Hx Hrest) as (A2 & B2 & C2).
  rewrite Forall_forall in C1, C2.
  destruct (aware_inv _ A1) as (sv & stz & Es).
  destruct (aware_inv _ A2) as (ev & etz & Ee).
  exists sv, stz, ev, etz. cbn [min_of max_of bind].
  rewrite Es, Ee in *.
  split; [reflexivity |]. split; [reflexivity |].
  split; [split; eapply Permutation_in; eauto |].
  split; [| reflexivity].
  intros t Ht. apply (Permutation_in _ (Permutation_sym Hperm)) in Ht.
  split; [apply C1 | apply C2]; exact Ht.
Qed.

Lemma filter_timestamps_aware (timestamps out : list datetime) :
  filter_timestamps df timestamps h r = Ok out ->
  forallb is_aware timestamps = true /\ timestamps <> [].
Proof.
  intros H. unfold filter_timestamps in H.
  destruct (forallb is_aware timestamps) eqn:E; simpl in H; [| discriminate].
  split; [reflexivity |]. intros ->. discriminate.
Qed.

(** What a returned result is. *)
Lemma filter_timestamps_ok_inv (timestamps out : list datetime) :
  filter_timestamps df timestamps h r = Ok out ->
  exists sv stz ev etz invalid_times,
    min_of (sorted timestamps) = Ok (Stamp sv (Some stz))
    /\ max_of (sorted timestamps) = Ok (Stamp ev (Some etz))
    /\ (In (Stamp sv (Some stz)) timestamps
        /\ In (Stamp ev (Some etz)) timestamps)
    /\ (forall t, In t timestamps ->
          dt_le (Stamp sv (Some stz)) t = true
          /\ dt_le t (Stamp ev (Some etz)) = true)
    /\ get_invalid_times df (Stamp sv (Some stz)) (Stamp ev (Some etz)) h r
       = Ok invalid_times
    /\ out = filter (fun ts => negb (existsb (inside ts) invalid_times))
               (sorted timestamps).
Proof.
  intros H. destruct (filter_timestamps_aware _ _ H) as [Ha Hne].
  destruct (filter_timestamps_window timestamps Ha Hne)
    as (sv & stz & ev & etz & Hmin & Hmax & Hin & Hb & Hf).
  rewrite Hf in H. apply bind_ok in H. destruct H as (ivs & Hget & H).
  injection H as <-. exists sv, stz, ev, etz, ivs. auto 10.
Qed.

Lemma filter_timestamps_in_bounds (timestamps : list datetime) :
  forallb is_aware timestamps = true ->
  timestamps <> [] ->
  in_bounds df h r ->
  exists out, filter_timestamps df timestamps h r = Ok out.
Proof.
  intros Ha Hne B.
  destruct (filter_timestamps_window timestamps Ha Hne)
    as (sv & stz & ev & etz & _ & _ & _ & _ & Hf).
  rewrite Hf, (get_invalid_times_in_bounds df sv ev stz etz h r B).
  cbn [bind]. eauto.
Qed.

(** When [get_invalid_times] returns on aware timestamps, the sums fit. *)
Lemma get_invalid_times_fits (sv ev : Z) (stz etz : string)
  (out : list interval) :
  get_invalid_times df (Stamp sv (Some stz)) (Stamp ev (Some etz)) h r = Ok out ->
  sums_fit df h r.
Proof.
  intros H. apply get_invalid_times_ok_inv in H.
  destruct H as (d & Hd & Hsum & _).
  apply Timedelta_value in Hd. destruct Hd as [-> Hd].
  split; [exact Hd |]. intros row eo Hin Hh E.
  specialize (Hsum row Hin Hh). rewrite E in Hsum.
  apply dt_add_some in Hsum. apply Hsum.
Qed.

(** C3, as the code has it: each query returns only on aware timestamps
    and when the duration and the sums fit the range, and it does return on
    aware timestamps inside the bounds, but for [filter_timestamps] the
    list must also hold a timestamp: on the empty list it raises
    [ValueError], from [min] of an empty list.  A recovery time that fits
    no duration makes [get_invalid_times] raise on aware timestamps. *)
Theorem query_failures :
  (forall start_ts end_ts,
      ((exists out, get_invalid_times df start_ts end_ts h r = Ok out) ->
       is_aware start_ts = true /\ is_aware end_ts = true /\ sums_fit df h r)
      /\ (is_aware start_ts = true -> is_aware end_ts = true ->
          in_bounds df h r ->
          exists out, get_invalid_times df start_ts end_ts h r = Ok out)
      /\ (is_aware start_ts = true -> is_aware end_ts = true ->
          ~ (-9223372036854775807 <= r * 60000000000 <= 9223372036854775807) ->
          get_invalid_times df start_ts end_ts h r = Raise OutOfBoundsTimedelta))
  /\ (forall timestamps,
        ((exists out, filter_timestamps df timestamps h r = Ok out) ->
         forallb is_aware timestamps = true /\ timestamps <> []
         /\ sums_fit df h r)
        /\ (forallb is_aware timestamps = true -> timestamps <> [] ->
            in_bounds df h r ->
            exists out, filter_timestamps df timestamps h r = Ok out))
  /\ (forall timestamp,
        ((exists valid, valid_ts df timestamp h r = Ok valid) ->
         is_aware timestamp = true /\ sums_fit df h r)
        /\ (is_aware timestamp = true -> in_bounds df h r ->
            exists valid, valid_ts df timestamp h r = Ok valid))
  /\ filter_timestamps df [] h r = Raise ValueError.
Proof.
  assert (F1 : forall timestamps,
             (exists out, filter_timestamps df timestamps h r = Ok out) ->
             forallb is_aware timestamps = true /\ timestamps <> []
             /\ sums_fit df h r).
  { intros timestamps [out H].
    destruct (filter_timestamps_aware _ _ H) as [Ha Hne].
    split; [exact Ha |]. split; [exact Hne |].
    apply filter_timestamps_ok_inv in H.
    destruct H as (sv & stz & ev & etz & ivs & _ & _ & _ & _ & Hget & _).
    eapply get_invalid_times_fits, Hget. }
  split; [| split; [| split; [| reflexivity]]].
  - intros start_ts end_ts. split; [| split].
    + intros [out H].
      destruct start_ts as [| sv [stz |]]; try discriminate H.
      destruct end_ts as [| ev [etz |]]; try discriminate H.
      split; [reflexivity |]. split; [reflexivity |].
      eapply get_invalid_times_fits, H.
    + intros Hs He B.
      destruct (aware_inv _ Hs) as (sv & stz & ->).
      destruct (aware_inv _ He) as (ev & etz & ->).
      eexists. apply get_invalid_times_in_bounds, B.
    + intros Hs He Hr.
      destruct (aware_inv _ Hs) as (sv & stz & ->).
      destruct (aware_inv _ He) as (ev & etz & ->).
      rewrite get_invalid_times_steps.
      destruct (Timedelta r) as [d | e] eqn:E.
      * apply Timedelta_value in E. destruct E as [_ E]. contradiction.
      * apply Timedelta_raises in E. destruct E as [-> _]. reflexivity.
  - intros timestamps. split; [apply F1 |].
    apply filter_timestamps_in_bounds.
  - intros timestamp. split.
    + intros [valid H]. unfold valid_ts in H.
      apply bind_ok in H. destruct H as (out & H & _).
      destruct (F1 [timestamp]) as (Ha & _ & Hfit); [eauto |].
      simpl in Ha. rewrite andb_true_r in Ha. auto.
    + intros Ha B. unfold valid_ts.
      destruct (filter_timestamps_in_bounds [timestamp]) as [out H];
        try assumption.
      { simpl. rewrite Ha. reflexivity. }
      { discriminate. }
      rewrite H. cbn [bind]. eauto.
Qed.

(** C8: whenever [filter_timestamps] returns, on a list in any order, its
    result is in ascending order and is a subsequence of the sorted input,
    which is the input rearranged into ascending order; and it does return
    on a list of aware timestamps that is not empty, inside the bounds. *)
Theorem filter_timestamps_ascending (timestamps : list datetime) :
  forallb is_aware timestamps = true ->
  timestamps <> [] ->
  (in_bounds df h r ->
   exists out, filter_timestamps df timestamps h r = Ok out)
  /\ (forall out,
        filter_timestamps df timestamps h r = Ok out ->
        ascending out
        /\ Subsequence out (sorted timestamps)
        /\ Permutation (sorted timestamps) timestamps
        /\ ascending (sorted timestamps)).
Proof.
  intros Ha Hne. split; [apply filter_timestamps_in_bounds; assumption |].
  intros out H.
  apply filter_timestamps_ok_inv in H.
  destruct H as (sv & stz & ev & etz & ivs & _ & _ & _ & _ & _ & ->).
  pose proof (sorted_ascending timestamps (proj1 (forallb_aware _) Ha)) as Hs.
  split; [apply filter_ascending, Hs |].
  split; [apply filter_subsequence |].
  split; [apply sorted_perm | exact Hs].
Qed.


End FilterFacts.

(** ** [build_openings_df] *)

Lemma mapM_Forall2 {A B : Type} (f : A -> result B) (l : list A) (l' : list B) :
  mapM f l = Ok l' -> Forall2 (fun x y => f x = Ok y) l l'.
Proof.
  revert l'. induction l as [| x rest IH]; simpl; intros l' H.
  - injection H as <-. constructor.
  - apply bind_ok in H. destruct H as (y & Hy & H).
    apply bind_ok in H. destruct H as (ys & Hys & H).
    injection H as <-. constructor; auto.
Qed.

Lemma mapM_app {A B : Type} (f : A -> result B) (l1 l2 : list A) (out : list B) :
  mapM f (l1 ++ l2) = Ok out ->
  exists o1 o2, mapM f l1 = Ok o1 /\ mapM f l2 = Ok o2 /\ out = o1 ++ o2.
Proof.
  revert out. induction l1 as [| x rest IH]; simpl; intros out H.
  - exists [], out. auto.
  - apply bind_ok in H. destruct H as (y & Hy & H).
    apply bind_ok in H. destruct H as (ys & Hys & H).
    injection H as <-.
    destruct (IH _ Hys) as (o1 & o2 & E1 & E2 & ->).
    exists (y :: o1), o2. rewrite Hy, E1. simpl. auto.
Qed.

Lemma Forall2_In_r {A B : Type} (R : A -> B -> Prop) (l : list A) (l' : list B)
  (y : B) :
  Forall2 R l l' -> In y l' -> exists x, In x l /\ R x y.
Proof.
  induction 1 as [| a b l l' Hab _ IH]; simpl; [contradiction |].
  intros [<- | Hy]; [eauto |].
  destruct (IH Hy) as (x & Hx & Hr). eauto.
Qed.

Section LoaderFacts.
Import PyStr Loader.

Variable tz_localize : Z -> result Z.

Lemma parse_line_none (line : string) :
  parse_line line = None <->
  is_empty (strip line) = true
  \/ startswith line "#" = true
  \/ (List.length (split " " (strip line) 3) <> 3%nat
      /\ List.length (split " " (strip line) 3) <> 4%nat).
Proof.
  unfold parse_line.
  destruct (is_empty (strip line)); simpl; [intuition |].
  destruct (startswith line "#"); simpl; [intuition |].
  destruct (split " " (strip line) 3)
    as [| a [| b [| c [| d [| e l]]]]]; simpl;
    intuition (try discriminate; try lia).
Qed.

Lemma split_not_nil (sep : ascii) (s : string) (maxsplit : nat) :
  split sep s maxsplit <> [].
Proof.
  destruct s as [| c rest]; simpl; [discriminate |].
  destruct maxsplit as [| k]; [discriminate |].
  destruct (Ascii.eqb c sep); [discriminate |].
  destruct (split sep rest (S k)); discriminate.
Qed.

Lemma openings_data_app (l1 l2 : list string) :
  openings_data (l1 ++ l2) = openings_data l1 ++ openings_data l2.
Proof.
  induction l1 as [| x rest IH]; simpl; [reflexivity |].
  destruct (parse_line x); simpl; rewrite IH; reflexivity.
Qed.

(** The rows of one timed row, when every cast succeeds. *)
Lemma cast_digits (r : timed_row) (digits : string) (out : list OpeningRecord) :
  mapM cast_row (map (fun h => (r, Some h)) (chars digits)) = Ok out ->
  out = map (fun c => mkOpening (t_start r) (t_end r) (digit_value c)
                        (raw_comment (t_raw r)))
          (list_ascii_of_string digits).
Proof.
  revert out. induction digits as [| c rest IH]; simpl; intros out H.
  - injection H as <-. reflexivity.
  - apply bind_ok in H. destruct H as (y & Hy & H).
    apply bind_ok in H. destruct H as (ys & Hys & H).
    injection H as <-. rewrite (IH _ Hys). f_equal.
    unfold cast_row in Hy. simpl in Hy.
    destruct (isdigit c); simpl in Hy; [| discriminate].
    injection Hy as <-. reflexivity.
Qed.

Lemma cast_explode_row (r : timed_row) (out : list OpeningRecord) :
  mapM cast_row (explode_row r) = Ok out -> out = records_of r.
Proof.
  unfold explode_row, hive_list, records_of.
  destruct (extract_hive_digits (hives (t_raw r))) as [digits |];
    [| simpl; discriminate].
  destruct digits as [| c rest]; [simpl; discriminate |].
  intros H. apply (cast_digits r (String c rest)). exact H.
Qed.

Lemma cast_explode (rows : list timed_row) (out : list OpeningRecord) :
  mapM cast_row (flat_map explode_row rows) = Ok out ->
  out = flat_map records_of rows.
Proof.
  revert out. induction rows as [| r rest IH]; simpl; intros out H.
  - injection H as <-. reflexivity.
  - apply mapM_app in H. destruct H as (o1 & o2 & H1 & H2 & ->).
    rewrite (cast_explode_row _ _ H1), (IH _ H2). reflexivity.
Qed.

Lemma zip_rows_timed (rows : list raw_row) :
  forall (s0 e0 : list (option Z)) (s1 e1 : list cell),
    Forall2 (fun x y => Strptime.to_datetime x = Ok y) (map start_text rows) s0 ->
    Forall2 (fun x y => Strptime.to_datetime x = Ok y) (map end_text rows) e0 ->
    Forall2 (fun x y => localize_cell tz_localize x = Ok y) s0 s1 ->
    Forall2 (fun x y => localize_cell tz_localize x = Ok y) e0 e1 ->
    Forall2 (timed_from tz_localize) rows (zip_rows rows s1 e1).
Proof.
  induction rows as [| row rest IH]; simpl; intros s0 e0 s1 e1 A B C D.
  - constructor.
  - inversion A as [| ? sa ? s0' Ha A']; subst.
    inversion B as [| ? ea ? e0' Hb B']; subst.
    inversion C as [| ? sc ? s1' Hc C']; subst.
    inversion D as [| ? ec ? e1' Hd D']; subst.
    constructor; [| eapply IH; eassumption].
    unfold timed_from; simpl. split; [reflexivity |]. split.
    + unfold start_from.
      destruct (start_text row) as [text |] eqn:E; simpl in Ha.
      * apply bind_ok in Ha. destruct Ha as (w & Hw & Ha).
        injection Ha as <-. simpl in Hc.
        apply bind_ok in Hc. destruct Hc as (t & Ht & Hc).
        injection Hc as <-. exists w, text, t. auto.
      * unfold start_text, split_all in E.
        pose proof (split_not_nil "-" (time row) (String.length (time row))).
        destruct (split "-" (time row) (String.length (time row)));
          [contradiction | discriminate].
    + unfold end_from.
      destruct (end_text row) as [text |] eqn:E; simpl in Hb.
      * apply bind_ok in Hb. destruct Hb as (w & Hw & Hb).
        injection Hb as <-. simpl in Hd.
        apply bind_ok in Hd. destruct Hd as (t & Ht & Hd).
        injection Hd as <-. exists (Some w), text, t. auto.
      * injection Hb as <-. simpl in Hd. injection Hd as <-.
        exists None. auto.
Qed.

(** The table of a successful load, row by row. *)
Lemma build_from_rows_inv (rows : list raw_row) (out : list OpeningRecord) :
  build_from_rows tz_localize rows = Ok out ->
  exists timed,
    Forall2 (timed_from tz_localize) rows timed
    /\ out = flat_map records_of timed.
Proof.
  unfold build_from_rows.
  destruct rows as [| row0 rest] eqn:E; [discriminate |].
  rewrite <- E. clear E. intros H.
  apply bind_ok in H. destruct H as (s0 & Hs0 & H).
  apply bind_ok in H. destruct H as (e0 & He0 & H).
  apply bind_ok in H. destruct H as (s1 & Hs1 & H).
  apply bind_ok in H. destruct H as (e1 & He1 & H).
  exists (zip_rows rows s1 e1). split.
  - eapply zip_rows_timed; eapply mapM_Forall2; eassumption.
  - apply cast_explode, H.
Qed.

End LoaderFacts.

Section LoaderClaims.
Import PyStr Loader.

Variable tz_localize : Z -> result Z.

Lemma cast_digits_ok (r : timed_row) (digits : string) :
  forallb isdigit (list_ascii_of_string digits) = true ->
  mapM cast_row (map (fun h => (r, Some h)) (chars digits))
  = Ok (map (fun c => mkOpening (t_start r) (t_end r) (digit_value c)
                        (raw_comment (t_raw r)))
          (list_ascii_of_string digits)).
Proof.
  induction digits as [| c rest IH]; simpl; intros H; [reflexivity |].
  apply andb_true_iff in H. destruct H as [Hc Hrest].
  unfold cast_row at 1. simpl. rewrite Hc. simpl.
  rewrite (IH Hrest). reflexivity.
Qed.

Lemma digit_run_all (digits : string) :
  forallb isdigit (list_ascii_of_string digits) = true ->
  digit_run digits = digits.
Proof.
  induction digits as [| c rest IH]; simpl; intros H; [reflexivity |].
  apply andb_true_iff in H. destruct H as [Hc Hrest].
  rewrite Hc, (IH Hrest). reflexivity.
Qed.

Lemma extract_hive_token (digits : string) :
  digits <> EmptyString ->
  forallb isdigit (list_ascii_of_string digits) = true ->
  extract_hive_digits (String "h" digits) = Some digits.
Proof.
  intros Hne Hall. simpl.
  destruct digits as [| c rest]; [contradiction |].
  simpl in Hall. apply andb_true_iff in Hall. destruct Hall as [Hc Hrest].
  simpl. rewrite Hc. f_equal. f_equal. apply digit_run_all, Hrest.
Qed.

(** A log of one row whose hive token is [h] and digits. *)
Lemma build_from_single_row (row : raw_row) (digits text_s text_e : string)
  (wall_s wall_e t_s t_e : Z) :
  hives row = String "h" digits ->
  digits <> EmptyString ->
  forallb isdigit (list_ascii_of_string digits) = true ->
  start_text row = Some text_s ->
  Strptime.strptime text_s = Ok wall_s ->
  tz_localize wall_s = Ok t_s ->
  end_text row = Some text_e ->
  Strptime.strptime text_e = Ok wall_e ->
  tz_localize wall_e = Ok t_e ->
  build_from_rows tz_localize [row]
  = Ok (map (fun c => mkOpening (Some t_s) (Some t_e) (digit_value c)
                        (raw_comment row))
          (list_ascii_of_string digits)).
Proof.
  intros Hh Hne Hall Hs Hws Hts He Hwe Hte.
  unfold build_from_rows. simpl.
  rewrite Hs, He. simpl. rewrite Hws, Hwe. simpl. rewrite Hts, Hte. simpl.
  rewrite app_nil_r.
  unfold explode_row, hive_list. simpl.
  rewrite Hh, (extract_hive_token digits Hne Hall).
  destruct digits as [| c rest]; [contradiction |].
  apply (cast_digits_ok (mkTimed row (Some t_s) (Some t_e)) (String c rest)).
  exact Hall.
Qed.

(** C6: the line [01/02/24 10:00-11:00 h12 inspection] loads into two
    rows, for hive 1 and for hive 2, both from 10:00 to 11:00 of the first
    of February 2024 as localised, both with the comment [inspection];
    so does the line with its newline.
    In general a row with the hive token [h] and digits loads into one
    row for each digit, with that digit as its hive and the timestamps
    and the comment of the line; and every table that loads is made of
    such rows. *)
Theorem sample_line_records (t_s t_e : Z) :
  tz_localize (feb1 600) = Ok t_s ->
  tz_localize (feb1 660) = Ok t_e ->
  build_openings_df tz_localize ["01/02/24 10:00-11:00 h12 inspection"%string]
  = Ok [mkOpening (Some t_s) (Some t_e) 1 (Some "inspection"%string);
        mkOpening (Some t_s) (Some t_e) 2 (Some "inspection"%string)]
  /\ build_openings_df tz_localize ["01/02/24 10:00-11:00 h12 inspection
"%string]
  = Ok [mkOpening (Some t_s) (Some t_e) 1 (Some "inspection"%string);
        mkOpening (Some t_s) (Some t_e) 2 (Some "inspection"%string)]
  /\ (forall row digits text_s text_e wall_s wall_e u_s u_e,
        hives row = String "h" digits ->
        digits <> EmptyString ->
        forallb isdigit (list_ascii_of_string digits) = true ->
        start_text row = Some text_s ->
        Strptime.strptime text_s = Ok wall_s ->
        tz_localize wall_s = Ok u_s ->
        end_text row = Some text_e ->
        Strptime.strptime text_e = Ok wall_e ->
        tz_localize wall_e = Ok u_e ->
        build_from_rows tz_localize [row]
        = Ok (map (fun c => mkOpening (Some u_s) (Some u_e) (digit_value c)
                              (raw_comment row))
                (list_ascii_of_string digits)))
  /\ (forall openings table,
        build_openings_df tz_localize openings = Ok table ->
        exists timed,
          Forall2 (timed_from tz_localize) (openings_data openings) timed
          /\ table = flat_map records_of timed).
Proof.
  intros Hs He.
  assert (Hrow : build_from_rows tz_localize
                   [mkRaw "01/02/24" "10:00-11:00" "h12" (Some "inspection"%string)]
                 = Ok [mkOpening (Some t_s) (Some t_e) 1 (Some "inspection"%string);
                       mkOpening (Some t_s) (Some t_e) 2 (Some "inspection"%string)]).
  2: split; [exact Hrow | split; [exact Hrow | split]].
  - rewrite (build_from_single_row _ "12" "01/02/24 10:00" "01/02/24 11:00"
               (feb1 600) (feb1 660) t_s t_e);
      solve [reflexivity | discriminate | assumption].
  - intros. eapply build_from_single_row; eassumption.
  - intros openings table H. apply build_from_rows_inv, H.
Qed.

(** C2, as the code has it: the loader compares no times.  With a
    localisation that keeps the order of wall-clock times, a loaded row
    has [end_opening >= start_opening] exactly when the time range of its
    line has a second part and the wall-clock end parsed from it is not
    before the wall-clock start. *)
Theorem loaded_record_order (openings : list string)
  (table : list OpeningRecord) :
  (forall w1 w2 t1 t2,
      tz_localize w1 = Ok t1 -> tz_localize w2 = Ok t2 ->
      (w1 <= w2 <-> t1 <= t2)) ->
  build_openings_df tz_localize openings = Ok table ->
  forall rec, In rec table ->
    exists row wall_start wall_end,
      In row (openings_data openings)
      /\ start_from tz_localize row wall_start (start_opening rec)
      /\ end_from tz_localize row wall_end (end_opening rec)
      /\ (dt_ge (of_cell (end_opening rec)) (of_cell (start_opening rec)) = true
          <-> exists w, wall_end = Some w /\ wall_start <= w).
Proof.
  intros Hmono Hbuild rec Hrec.
  apply build_from_rows_inv in Hbuild.
  destruct Hbuild as (timed & Hall & ->).
  apply in_flat_map in Hrec. destruct Hrec as (tr & Htr & Hrec).
  destruct (Forall2_In_r _ _ _ _ Hall Htr) as (row & Hrow & Hfrom).
  destruct Hfrom as (Hraw & (ws & Hstart) & (we & Hend)).
  assert (Hcells : start_opening rec = t_start tr /\ end_opening rec = t_end tr).
  { unfold records_of in Hrec.
    destruct (extract_hive_digits (hives (t_raw tr))); [| contradiction].
    apply in_map_iff in Hrec. destruct Hrec as (c & <- & _). auto. }
  destruct Hcells as [-> ->].
  exists row, ws, we. do 3 (split; [assumption |]).
  destruct Hstart as (ts_text & u_s & _ & _ & Hus & ->).
  destruct we as [w |]; simpl in Hend.
  - destruct Hend as (te_text & u_e & _ & _ & Hue & ->).
    simpl. to_arith. rewrite <- (Hmono ws w u_s u_e Hus Hue). split.
    + intros H. exists w. auto.
    + intros (w' & E & H). injection E as <-. exact H.
  - destruct Hend as [_ ->]. simpl. split; [discriminate |].
    intros (w' & E & _). discriminate.
Qed.

(** C7, as the code has it: a line gives no row exactly when it is empty
    once stripped, or starts with [#], or its stripped text cut at
    single spaces, at most three times, has neither three nor four
    fields.  Such a line changes nothing: the load with it and the load
    without it have the same outcome. *)
Theorem dropped_line (line : string) :
  let dropped :=
    is_empty (strip line) = true
    \/ startswith line "#" = true
    \/ (List.length (split " " (strip line) 3) <> 3%nat
        /\ List.length (split " " (strip line) 3) <> 4%nat) in
  (parse_line line = None <-> dropped)
  /\ (dropped ->
      forall before after,
        openings_data (before ++ line :: after) = openings_data (before ++ after)
        /\ build_openings_df tz_localize (before ++ line :: after)
           = build_openings_df tz_localize (before ++ after)).
Proof.
  intros dropped. split; [apply parse_line_none |].
  intros Hd before after. apply parse_line_none in Hd.
  assert (E : openings_data (before ++ line :: after)
              = openings_data (before ++ after)).
  { rewrite !openings_data_app. simpl. rewrite Hd. reflexivity. }
  split; [exact E |].
  unfold build_openings_df. rewrite E. reflexivity.
Qed.

End LoaderClaims.

(** * Concrete inputs *)

(** The bounds of a table written out. *)
Ltac sample_bounds :=
  split; [lia | split];
  intros row t Hin _ E; simpl in Hin;
  repeat (destruct Hin as [<- | Hin];
          [ try discriminate E; injection E as <-;
            unfold feb1, Strptime.ns_per_minute; lia | ]);
  contradiction.

Section Samples.
Import Loader.
Open Scope string_scope.

(** C1 as stated fails: with a recovery time of 0, the opening
    [11:00-11:00] ends exactly at [end_ts]; it meets none of the three
    conditions as stated, and the code returns an interval for it. *)
Lemma overlap_strict_end_counterexample :
  build_openings_df standard_time ["01/02/24 11:00-11:00 h1"]
  = Ok [mkOpening (Some (feb1 600)) (Some (feb1 600)) 1 None]
  /\ get_invalid_times [mkOpening (Some (feb1 600)) (Some (feb1 600)) 1 None]
       (cet (feb1 540)) (cet (feb1 600)) 1 0
     = Ok [mkInterval (cet (feb1 600)) (cet (feb1 600))]
  /\ ~ AsStated.contributes (feb1 540) (feb1 600) (feb1 600)
         (feb1 600 + 0 * 60000000000).
Proof.
  split; [vm_compute; reflexivity |].
  split; [vm_compute; reflexivity |].
  unfold AsStated.contributes, feb1, Strptime.ns_per_minute. lia.
Qed.

(** C2 as stated fails: a line whose range runs backwards loads, and its
    row ends before it starts. *)
Lemma reversed_range_counterexample :
  build_openings_df standard_time ["01/02/24 11:00-10:00 h1"]
  = Ok [mkOpening (Some (feb1 600)) (Some (feb1 540)) 1 None]
  /\ dt_ge (of_cell (Some (feb1 540))) (of_cell (Some (feb1 600))) = false.
Proof. split; vm_compute; reflexivity. Qed.


(** C7 as stated fails: a line of two whitespace-delimited fields with
    two spaces between them is cut into three fields, is kept, and the
    load raises on its empty time. *)
Lemma double_space_counterexample :
  AsStated.whitespace_fields "01/02/24  10:00-11:00" = 2%nat
  /\ parse_line "01/02/24  10:00-11:00"
     = Some (mkRaw "01/02/24" "" "10:00-11:00" None)
  /\ build_openings_df standard_time ["01/02/24 10:00-11:00 h1"]
     = Ok [mkOpening (Some (feb1 540)) (Some (feb1 600)) 1 None]
  /\ build_openings_df standard_time
       ["01/02/24 10:00-11:00 h1"; "01/02/24  10:00-11:00"]
     = Raise ValueError.
Proof. repeat split; vm_compute; reflexivity. Qed.

Lemma standard_time_monotone (w1 w2 t1 t2 : Z) :
  standard_time w1 = Ok t1 -> standard_time w2 = Ok t2 ->
  (w1 <= w2 <-> t1 <= t2).
Proof.
  unfold standard_time. intros H1 H2.
  injection H1 as <-. injection H2 as <-. lia.
Defined.

Lemma loaded_record_order_witness :
  build_openings_df standard_time ["01/02/24 10:00-11:00 h1"]
  = Ok [mkOpening (Some (feb1 540)) (Some (feb1 600)) 1 None]
  /\ exists row wall_start wall_end,
      In row (openings_data ["01/02/24 10:00-11:00 h1"])
      /\ start_from standard_time row wall_start (Some (feb1 540))
      /\ end_from standard_time row wall_end (Some (feb1 600))
      /\ (dt_ge (of_cell (Some (feb1 600))) (of_cell (Some (feb1 540))) = true
          <-> exists w, wall_end = Some w /\ wall_start <= w).
Proof.
  assert (H : build_openings_df standard_time ["01/02/24 10:00-11:00 h1"]
              = Ok [mkOpening (Some (feb1 540)) (Some (feb1 600)) 1 None])
    by (vm_compute; reflexivity).
  split; [exact H |].
  exact (loaded_record_order standard_time _ _ standard_time_monotone H
           _ (or_introl eq_refl)).
Defined.

Lemma get_invalid_times_selection_witness :
  in_bounds [mkOpening (Some (feb1 540)) (Some (feb1 600)) 1 None] 1 60
  /\ exists selected : OpeningRecord -> bool,
      get_invalid_times [mkOpening (Some (feb1 540)) (Some (feb1 600)) 1 None]
        (Stamp (feb1 620) (Some "CET")) (Stamp (feb1 700) (Some "CET")) 1 60
      = Ok (map (clipped (Stamp (feb1 620) (Some "CET"))
                   (Stamp (feb1 700) (Some "CET")) (60 * 60000000000))
              (filter selected
                 [mkOpening (Some (feb1 540)) (Some (feb1 600)) 1 None]))
      /\ selected (mkOpening (Some (feb1 540)) (Some (feb1 600)) 1 None) = true.
Proof.
  assert (B : in_bounds [mkOpening (Some (feb1 540)) (Some (feb1 600)) 1 None]
                1 60) by sample_bounds.
  split; [exact B |].
  destruct (get_invalid_times_selection
              [mkOpening (Some (feb1 540)) (Some (feb1 600)) 1 None]
              (feb1 620) (feb1 700) "CET" "CET" 1 60 B)
    as (selected & Hget & Hsel).
  exists selected. split; [exact Hget |].
  apply Hsel; [left; reflexivity |].
  split; [reflexivity |]. right; left. exists (feb1 600).
  split; [reflexivity |]. unfold feb1, Strptime.ns_per_minute. lia.
Defined.

Lemma get_invalid_times_one_interval_per_row_witness :
  in_bounds
    [mkOpening (Some (feb1 540)) (Some (feb1 600)) 1 None;
     mkOpening (Some (feb1 570)) (Some (feb1 630)) 1 None] 1 60
  /\ exists iv1 iv2 out,
      get_invalid_times
        [mkOpening (Some (feb1 540)) (Some (feb1 600)) 1 None;
         mkOpening (Some (feb1 570)) (Some (feb1 630)) 1 None]
        (cet (feb1 0)) (cet (feb1 1000)) 1 60 = Ok out
      /\ nth_error out 0 = Some iv1 /\ nth_error out 1 = Some iv2
      /\ inside (cet (feb1 650)) iv1 = true
      /\ inside (cet (feb1 650)) iv2 = true.
Proof.
  assert (B : in_bounds
                [mkOpening (Some (feb1 540)) (Some (feb1 600)) 1 None;
                 mkOpening (Some (feb1 570)) (Some (feb1 630)) 1 None] 1 60)
    by sample_bounds.
  split; [exact B |].
  destruct (get_invalid_times_one_interval_per_row
              [mkOpening (Some (feb1 540)) (Some (feb1 600)) 1 None;
               mkOpening (Some (feb1 570)) (Some (feb1 630)) 1 None]
              (feb1 0) (feb1 1000) "CET" "CET" 1 60 B)
    as (out & Hget & _ & _ & Htwo).
  destruct (Htwo 0%nat 1%nat
              (mkOpening (Some (feb1 540)) (Some (feb1 600)) 1 None)
              (mkOpening (Some (feb1 570)) (Some (feb1 630)) 1 None)
              (feb1 650) (Some "CET"))
    as (iv1 & iv2 & H1 & H2 & I1 & I2).
  - discriminate.
  - vm_compute; reflexivity.
  - vm_compute; reflexivity.
  - unfold feb1, Strptime.ns_per_minute. lia.
  - intros row [-> | ->]; do 2 eexists;
      (split; [reflexivity |]); (split; [reflexivity |]);
      unfold feb1, Strptime.ns_per_minute; lia.
  - exists iv1, iv2, out. repeat split; assumption.
Defined.


Lemma sample_line_records_witness :
  standard_time (feb1 600) = Ok (feb1 540)
  /\ standard_time (feb1 660) = Ok (feb1 600)
  /\ build_openings_df standard_time ["01/02/24 10:00-11:00 h12 inspection"]
     = Ok [mkOpening (Some (feb1 540)) (Some (feb1 600)) 1 (Some "inspection");
           mkOpening (Some (feb1 540)) (Some (feb1 600)) 2 (Some "inspection")].
Proof.
  assert (H1 : standard_time (feb1 600) = Ok (feb1 540))
    by (vm_compute; reflexivity).
  assert (H2 : standard_time (feb1 660) = Ok (feb1 600))
    by (vm_compute; reflexivity).
  split; [exact H1 |]. split; [exact H2 |].
  exact (proj1 (sample_line_records standard_time _ _ H1 H2)).
Defined.

Lemma dropped_line_witness :
  PyStr.startswith "# hive 3 was moved" "#" = true
  /\ forall before after,
      openings_data (before ++ "# hive 3 was moved" :: after)
      = openings_data (before ++ after)
      /\ build_openings_df standard_time (before ++ "# hive 3 was moved" :: after)
         = build_openings_df standard_time (before ++ after).
Proof.
  split; [reflexivity |].
  apply (proj2 (dropped_line standard_time "# hive 3 was moved")).
  right; left; reflexivity.
Defined.

Lemma filter_timestamps_ascending_witness :
  forallb is_aware [cet (feb1 720); cet (feb1 650); cet (feb1 500)] = true
  /\ [cet (feb1 720); cet (feb1 650); cet (feb1 500)] <> []
  /\ in_bounds [mkOpening (Some (feb1 540)) (Some (feb1 600)) 1 None] 1 60
  /\ exists out,
      filter_timestamps [mkOpening (Some (feb1 540)) (Some (feb1 600)) 1 None]
        [cet (feb1 720); cet (feb1 650); cet (feb1 500)] 1 60 = Ok out
      /\ ascending out
      /\ Subsequence out (sorted [cet (feb1 720); cet (feb1 650); cet (feb1 500)])
      /\ Permutation (sorted [cet (feb1 720); cet (feb1 650); cet (feb1 500)])
           [cet (feb1 720); cet (feb1 650); cet (feb1 500)]
      /\ ascending (sorted [cet (feb1 720); cet (feb1 650); cet (feb1 500)]).
Proof.
  assert (Ha : forallb is_aware
                 [cet (feb1 720); cet (feb1 650); cet (feb1 500)] = true)
    by reflexivity.
  assert (Hne : [cet (feb1 720); cet (feb1 650); cet (feb1 500)] <> [])
    by discriminate.
  assert (B : in_bounds [mkOpening (Some (feb1 540)) (Some (feb1 600)) 1 None]
                1 60) by sample_bounds.
  split; [exact Ha |]. split; [exact Hne |]. split; [exact B |].
  destruct (filter_timestamps_ascending
              [mkOpening (Some (feb1 540)) (Some (feb1 600)) 1 None] 1 60
              _ Ha Hne) as [Hex Hall].
  destruct (Hex B) as [out Hout].
  exists out. split; [exact Hout |]. exact (Hall out Hout).
Defined.

Lemma hive_isolation_witness :
  hive_nb (mkOpening (Some (feb1 540)) (Some (feb1 600)) 1 None) <> 2
  /\ filter_timestamps
       ([] ++ mkOpening (Some (feb1 540)) (Some (feb1 600)) 1 None :: [])
       [cet (feb1 580)] 2 60
     = filter_timestamps ([] ++ []) [cet (feb1 580)] 2 60.
Proof.
  assert (Hne : hive_nb (mkOpening (Some (feb1 540)) (Some (feb1 600)) 1 None)
                <> 2) by (simpl; lia).
  split; [exact Hne |].
  exact (proj1 (proj2 (hive_isolation [] []
                         (mkOpening (Some (feb1 540)) (Some (feb1 600)) 1 None)
                         2 60 Hne)) [cet (feb1 580)]).
Defined.

Lemma get_invalid_times_well_formed_witness :
  is_aware (cet (feb1 500)) = true
  /\ is_aware (cet (feb1 650)) = true
  /\ dt_le (cet (feb1 500)) (cet (feb1 650)) = true
  /\ 0 <= 60
  /\ Forall (fun row => dt_ge (of_cell (end_opening row))
                          (of_cell (start_opening row)) = true)
       [mkOpening (Some (feb1 540)) (Some (feb1 600)) 1 None]
  /\ Forall (fun row => forall eo, end_opening row = Some eo ->
                          -9223372036854775808 < eo)
       [mkOpening (Some (feb1 540)) (Some (feb1 600)) 1 None]
  /\ in_bounds [mkOpening (Some (feb1 540)) (Some (feb1 600)) 1 None] 1 60
  /\ exists out,
      get_invalid_times [mkOpening (Some (feb1 540)) (Some (feb1 600)) 1 None]
        (cet (feb1 500)) (cet (feb1 650)) 1 60 = Ok out
      /\ Forall (fun iv => dt_le (start iv) (end_ iv) = true) out.
Proof.
  assert (H1 : is_aware (cet (feb1 500)) = true) by reflexivity.
  assert (H2 : is_aware (cet (feb1 650)) = true) by reflexivity.
  assert (H3 : dt_le (cet (feb1 500)) (cet (feb1 650)) = true)
    by (vm_compute; reflexivity).
  assert (H4 : 0 <= 60) by lia.
  assert (H5 : Forall (fun row => dt_ge (of_cell (end_opening row))
                                    (of_cell (start_opening row)) = true)
                 [mkOpening (Some (feb1 540)) (Some (feb1 600)) 1 None])
    by (repeat constructor).
  assert (H6 : Forall (fun row => forall eo, end_opening row = Some eo ->
                                    -9223372036854775808 < eo)
                 [mkOpening (Some (feb1 540)) (Some (feb1 600)) 1 None]).
  { constructor; [| constructor]. intros eo E. injection E as <-.
    unfold feb1, Strptime.ns_per_minute. lia. }
  assert (B : in_bounds [mkOpening (Some (feb1 540)) (Some (feb1 600)) 1 None]
                1 60) by sample_bounds.
  do 7 (split; [assumption |]).
  destruct (get_invalid_times_well_formed _ _ _ 1 60 H1 H2 H3 H4 H5 H6)
    as [Hex Hall].
  destruct (Hex B) as [out Hout].
  exists out. split; [exact Hout | exact (Hall out Hout)].
Defined.

End Samples.

(** * Further properties of the queries *)

Lemma mapM_app_eq {A B : Type} (f : A -> result B) (l1 l2 : list A) :
  mapM f (l1 ++ l2)
  = (o1 <- mapM f l1 ;; o2 <- mapM f l2 ;; Ok (o1 ++ o2)).
Proof.
  induction l1 as [| x rest IH]; simpl.
  - destruct (mapM f l2); reflexivity.
  - destruct (f x) as [y | e]; simpl; [| reflexivity].
    rewrite IH.
    destruct (mapM f rest) as [ys | e]; simpl; [| reflexivity].
    destruct (mapM f l2) as [zs | e]; reflexivity.
Qed.

Lemma compare_with_instant (op : Z -> Z -> bool) (a a' b b' : datetime) :
  instant a = instant a' -> instant b = instant b' ->
  compare_with op a b = compare_with op a' b'.
Proof.
  destruct a, a', b, b'; simpl; intros Ha Hb; try discriminate;
    try reflexivity.
  injection Ha as ->. injection Hb as ->. reflexivity.
Qed.

Lemma py_max_instant (a s s' : datetime) :
  instant s = instant s' -> instant (py_max a s) = instant (py_max a s').
Proof.
  intros H. unfold py_max, dt_gt.
  rewrite (compare_with_instant Z.gtb s s' a a H eq_refl).
  destruct (compare_with Z.gtb s' a); [exact H | reflexivity].
Qed.

Lemma py_min_instant (a e e' : datetime) :
  instant e = instant e' -> instant (py_min a e) = instant (py_min a e').
Proof.
  intros H. unfold py_min, dt_lt.
  rewrite (compare_with_instant Z.ltb e e' a a H eq_refl).
  destruct (compare_with Z.ltb e' a); [exact H | reflexivity].
Qed.

Lemma overlaps_instant (s s' e e' a b : datetime) :
  instant s = instant s' -> instant e = instant e' ->
  overlaps s e a b = overlaps s' e' a b.
Proof.
  intros Hs He. unfold overlaps, dt_lt, dt_le, dt_gt, dt_ge.
  rewrite (compare_with_instant Z.ltb a a e e' eq_refl He).
  rewrite (compare_with_instant Z.geb a a s s' eq_refl Hs).
  rewrite (compare_with_instant Z.gtb b b s s' eq_refl Hs).
  rewrite (compare_with_instant Z.leb b b e e' eq_refl He).
  rewrite (compare_with_instant Z.leb a a s s' eq_refl Hs).
  rewrite (compare_with_instant Z.geb b b e e' eq_refl He).
  reflexivity.
Qed.

Lemma selects_instant (s s' e e' : datetime) (d h : Z) (row : OpeningRecord) :
  instant s = instant s' -> instant e = instant e' ->
  selects s e d h row = selects s' e' d h row.
Proof.
  intros Hs He. unfold selects.
  rewrite (overlaps_instant s s' e e' _ _ Hs He). reflexivity.
Qed.

Lemma inside_instant (t t' s s' e e' : datetime) (d : Z) (row : OpeningRecord) :
  instant t = instant t' -> instant s = instant s' -> instant e = instant e' ->
  inside t (clipped s e d row) = inside t' (clipped s' e' d row).
Proof.
  intros Ht Hs He. unfold inside, clipped, dt_le. simpl.
  rewrite (compare_with_instant Z.leb _ _ t t' (py_max_instant _ s s' Hs) Ht).
  rewrite (compare_with_instant Z.leb t t' _ _ Ht (py_min_instant _ e e' He)).
  reflexivity.
Qed.

Section QueryExtras.

Variable df : list OpeningRecord.
Variables (h r : Z).

(** For a window of one instant the mask keeps the rows whose exclusion
    holds that instant. *)
Lemma overlaps_point (tv : Z) (tz1 tz2 : option string) (row : OpeningRecord)
  (e : datetime) :
  overlaps (Stamp tv tz1) (Stamp tv tz2) (of_cell (start_opening row)) e = true <->
  exists so x, start_opening row = Some so /\ instant e = Some x
               /\ so <= tv <= x.
Proof.
  rewrite overlaps_spec. split.
  - intros [(so & _ & H) | [(x & _ & H) | (so & x & E1 & E2 & H)]];
      try lia.
    exists so, x. repeat split; try assumption; lia.
  - intros (so & x & E1 & E2 & H). right; right.
    exists so, x. repeat split; try assumption; lia.
Qed.

(** A timestamp inside the interval of a row is inside the exclusion of
    the row. *)
Lemma inside_clipped_inv (t start_ts end_ts : datetime) (d : Z)
  (row : OpeningRecord) :
  inside t (clipped start_ts end_ts d row) = true ->
  exists tv so x,
    instant t = Some tv
    /\ start_opening row = Some so
    /\ instant (exclusion_end d row) = Some x
    /\ so <= tv <= x.
Proof.
  unfold inside, clipped, py_max, py_min; simpl.
  assert (Hnat : forall a, dt_le NaT a = false) by reflexivity.
  assert (Hnat' : forall a, dt_le a NaT = false) by (intros []; reflexivity).
  destruct (start_opening row) as [so |]; simpl.
  2: { destruct (dt_gt start_ts NaT) eqn:C; [destruct start_ts; discriminate |].
       rewrite Hnat. discriminate. }
  destruct (exclusion_end d row) as [| x xz]; simpl.
  { destruct (dt_lt end_ts NaT) eqn:C;
      [destruct end_ts; discriminate |].
    rewrite Hnat', andb_false_r. discriminate. }
  destruct t as [| tv ttz]; [rewrite Hnat', andb_false_l; discriminate |].
  intros H. exists tv, so, x. do 3 (split; [reflexivity |]).
  destruct start_ts as [| sv stz], end_ts as [| ev etz];
    unfold dt_gt, dt_lt, dt_le, compare_with in H; simpl in H;
    rewrite ?Z.gtb_ltb in H;
    repeat match type of H with
      | context [if ?b then _ else _] => destruct b eqn:?; simpl in H
      end;
    to_arith; lia.
Qed.

Lemma inside_clipped_point (tv : Z) (tz : string) (d : Z) (row : OpeningRecord) :
  overlaps (Stamp tv (Some tz)) (Stamp tv (Some tz))
    (of_cell (start_opening row)) (exclusion_end d row) = true ->
  inside (Stamp tv (Some tz))
    (clipped (Stamp tv (Some tz)) (Stamp tv (Some tz)) d row) = true.
Proof.
  intros H. apply overlaps_point in H.
  destruct H as (so & x & E1 & E2 & H).
  unfold inside, clipped, py_max, py_min; simpl. rewrite E1.
  destruct (exclusion_end d row) as [| x' xz]; [discriminate |].
  injection E2 as ->. simpl.
  unfold dt_gt, dt_lt, dt_le, compare_with; simpl. rewrite Z.gtb_ltb.
  destruct (so <? tv) eqn:C1, (tv <? x) eqn:C2; simpl; to_arith; lia.
Qed.

(** [valid_ts] on an aware timestamp: the duration, the sums, then one
    test over the table. *)
Lemma valid_ts_steps (tv : Z) (tz : string) :
  valid_ts df (Stamp tv (Some tz)) h r
  = (delta <- Timedelta r ;;
     _ <- mapM (fun row => dt_add (of_cell (end_opening row)) delta)
            (filter (fun row => hive_nb row =? h) df) ;;
     Ok (negb (existsb
                 (selects (Stamp tv (Some tz)) (Stamp tv (Some tz)) delta h)
                 df))).
Proof.
  unfold valid_ts, filter_timestamps.
  cbn [forallb is_aware negb andb sorted insert_sorted min_of max_of
         fold_left bind].
  rewrite get_invalid_times_steps.
  destruct (Timedelta r) as [d | e]; [| reflexivity]. cbn [bind].
  destruct (mapM _ _) as [ends | e]; [| reflexivity]. cbn [bind filter].
  f_equal.
  set (t := Stamp tv (Some tz)).
  assert (E : existsb (inside t) (map (clipped t t d) (filter (selects t t d h) df))
              = existsb (selects t t d h) df).
  { induction df as [| row rest IH]; simpl; [reflexivity |].
    destruct (selects t t d h row) eqn:S; simpl; [| exact IH].
    unfold selects in S. apply andb_true_iff in S. destruct S as [_ S].
    subst t. rewrite (inside_clipped_point tv tz d row S). reflexivity. }
  rewrite E. destruct (existsb (selects t t d h) df); reflexivity.
Qed.

Lemma valid_ts_ok_inv (tv : Z) (tz : string) (valid : bool) :
  valid_ts df (Stamp tv (Some tz)) h r = Ok valid ->
  exists d,
    Timedelta r = Ok d
    /\ (forall row, In row df -> hive_nb row = h ->
          dt_add (of_cell (end_opening row)) d = Ok (exclusion_end d row))
    /\ valid = negb (existsb
                       (selects (Stamp tv (Some tz)) (Stamp tv (Some tz)) d h)
                       df).
Proof.
  rewrite valid_ts_steps. intros H.
  apply bind_ok in H. destruct H as (d & Hd & H).
  apply bind_ok in H. destruct H as (ends & Hends & H).
  injection H as <-. exists d. split; [exact Hd |]. split; [| reflexivity].
  intros row Hin Hh.
  destruct (mapM_ok_each _ _ _ Hends row) as (y & Hy).
  { apply filter_In. split; [exact Hin | apply Z.eqb_eq, Hh]. }
  rewrite Hy, (exclusion_end_ok _ _ _ Hy). reflexivity.
Qed.

Lemma valid_ts_ok_intro (tv : Z) (tz : string) (d : Z) :
  Timedelta r = Ok d ->
  (forall row, In row df -> hive_nb row = h ->
     exists y, dt_add (of_cell (end_opening row)) d = Ok y) ->
  valid_ts df (Stamp tv (Some tz)) h r
  = Ok (negb (existsb
                (selects (Stamp tv (Some tz)) (Stamp tv (Some tz)) d h) df)).
Proof.
  intros Hd Hrows. rewrite valid_ts_steps, Hd. cbn [bind].
  rewrite (mapM_ok_map _ (exclusion_end d)); [reflexivity |].
  intros row Hrow. apply filter_In in Hrow. destruct Hrow as [Hin Hh].
  apply Z.eqb_eq in Hh. destruct (Hrows row Hin Hh) as (y & Hy).
  rewrite Hy, (exclusion_end_ok _ _ _ Hy). reflexivity.
Qed.

(** The rows that make a timestamp invalid. *)
Lemma selects_point (tv : Z) (tz : string) (d : Z) (row : OpeningRecord) :
  selects (Stamp tv (Some tz)) (Stamp tv (Some tz)) d h row = true <->
  hive_nb row = h
  /\ exists so x, start_opening row = Some so
                  /\ instant (exclusion_end d row) = Some x
                  /\ so <= tv <= x.
Proof.
  unfold selects. rewrite andb_true_iff, Z.eqb_eq, overlaps_point.
  reflexivity.
Qed.

(** X5: on an aware timestamp, inside the bounds, [valid_ts] returns, and
    it returns [False] exactly when some row of the hive has
    [start_opening <= t <= end_opening + recovery], the recovery being
    [recovery * 60000000000] nanoseconds. *)
Theorem valid_ts_characterisation (tv : Z) (tz : string) :
  in_bounds df h r ->
  exists valid,
    valid_ts df (Stamp tv (Some tz)) h r = Ok valid
    /\ (valid = false <->
        exists row so eo,
          In row df /\ hive_nb row = h
          /\ start_opening row = Some so /\ end_opening row = Some eo
          /\ so <= tv <= eo + r * 60000000000).
Proof.
  intros B. destruct (in_bounds_rows df h r B) as [Hd Hrows].
  eexists. split.
  { apply valid_ts_ok_intro with (d := r * 60000000000); [exact Hd |].
    intros row Hin Hh. apply (Hrows row Hin Hh). }
  rewrite negb_false_iff, existsb_exists. split.
  - intros (row & Hin & S). apply selects_point in S.
    destruct S as (Hh & so & x & Es & Ex & Hx).
    destruct (Hrows row Hin Hh) as [[[E X] | (eo & E & X)] _];
      rewrite X in Ex; [discriminate |].
    injection Ex as <-. exists row, so, eo. auto 10.
  - intros (row & so & eo & Hin & Hh & Es & Ee & Hx).
    exists row. split; [exact Hin |]. apply selects_point.
    split; [exact Hh |].
    destruct (Hrows row Hin Hh) as [[[E X] | (eo' & E & X)] _];
      [congruence |].
    assert (eo' = eo) by congruence. subst eo'.
    exists so, (eo + r * 60000000000). rewrite X. auto.
Qed.

(** With no row selected the result is the sorted list. *)
Lemma filter_timestamps_unselected (timestamps : list datetime) :
  forallb is_aware timestamps = true ->
  timestamps <> [] ->
  in_bounds df h r ->
  (forall sv stz ev etz row,
      In (Stamp sv (Some stz)) timestamps ->
      In (Stamp ev (Some etz)) timestamps ->
      (forall t, In t timestamps ->
         dt_le (Stamp sv (Some stz)) t = true
         /\ dt_le t (Stamp ev (Some etz)) = true) ->
      In row df ->
      selects (Stamp sv (Some stz)) (Stamp ev (Some etz)) (r * 60000000000) h row
      = false) ->
  filter_timestamps df timestamps h r = Ok (sorted timestamps).
Proof.
  intros Ha Hne B Hsel.
  destruct (filter_timestamps_window df h r timestamps Ha Hne)
    as (sv & stz & ev & etz & _ & _ & [Hs He] & Hb & ->).
  rewrite (get_invalid_times_in_bounds df sv ev stz etz h r B). cbn [bind].
  assert (E : filter (selects (Stamp sv (Some stz)) (Stamp ev (Some etz))
                        (r * 60000000000) h) df = []).
  { pose proof (fun row => Hsel sv stz ev etz row Hs He Hb) as Hsel'.
    clear - Hsel'. induction df as [| row rest IH]; simpl; [reflexivity |].
    rewrite (Hsel' row (or_introl eq_refl)).
    apply IH. intros row' Hin. apply Hsel'. right. exact Hin. }
  rewrite E. simpl. f_equal. apply filter_true.
Qed.

End QueryExtras.

(** X4: for a hive that no row of the table names and a recovery time
    that fits a duration, [get_invalid_times] returns no interval,
    [filter_timestamps] returns all the timestamps, sorted, and [valid_ts]
    returns [True]. *)
Theorem hive_without_openings (df : list OpeningRecord) (h r : Z) :
  Forall (fun row => hive_nb row <> h) df ->
  -9223372036854775807 <= r * 60000000000 <= 9223372036854775807 ->
  (forall sv ev stz etz,
      get_invalid_times df (Stamp sv (Some stz)) (Stamp ev (Some etz)) h r
      = Ok [])
  /\ (forall timestamps,
        forallb is_aware timestamps = true -> timestamps <> [] ->
        filter_timestamps df timestamps h r = Ok (sorted timestamps))
  /\ (forall tv tz, valid_ts df (Stamp tv (Some tz)) h r = Ok true).
Proof.
  intros Hno Hr. rewrite Forall_forall in Hno.
  assert (B : in_bounds df h r).
  { split; [exact Hr |].
    split; intros row t Hin Hh _; exfalso; exact (Hno row Hin Hh). }
  assert (S : forall s e row, In row df ->
                selects s e (r * 60000000000) h row = false).
  { intros s e row Hin. unfold selects.
    assert (Hrow : (hive_nb row =? h) = false) by (apply Z.eqb_neq, Hno, Hin).
    rewrite Hrow. reflexivity. }
  assert (E : forall s e, filter (selects s e (r * 60000000000) h) df = []).
  { intros s e. clear - S. induction df as [| row rest IH]; simpl; [reflexivity |].
    rewrite (S s e row (or_introl eq_refl)).
    apply IH. intros s' e' row' Hin. apply S. right. exact Hin. }
  split; [| split].
  - intros sv ev stz etz.
    rewrite (get_invalid_times_in_bounds df sv ev stz etz h r B), E. reflexivity.
  - intros timestamps Ha Hne.
    apply filter_timestamps_unselected; try assumption.
    intros sv stz ev etz row _ _ _ Hin. apply S, Hin.
  - intros tv tz.
    rewrite (valid_ts_ok_intro df h r tv tz (r * 60000000000)).
    + f_equal. apply negb_true_iff.
      destruct (existsb _ df) eqn:X; [| reflexivity].
      apply existsb_exists in X. destruct X as (row & Hin & Hs).
      rewrite (S _ _ row Hin) in Hs. discriminate.
    + apply Timedelta_value. auto.
    + intros row Hin Hh. exfalso. exact (Hno row Hin Hh).
Qed.

(** X6: a longer recovery time never makes a timestamp valid: when
    [valid_ts] accepts a timestamp with the longer one, then with the
    shorter one it does not return [False]; whenever it returns, it returns
    [True]. *)
Theorem valid_ts_recovery_monotone (df : list OpeningRecord)
  (t : datetime) (h r1 r2 : Z) :
  r1 <= r2 ->
  valid_ts df t h r2 = Ok true ->
  forall valid, valid_ts df t h r1 = Ok valid -> valid = true.
Proof.
  intros Hr H2 valid H1.
  destruct t as [| tv [tz |]]; try discriminate H2.
  destruct valid; [reflexivity | exfalso].
  apply valid_ts_ok_inv in H1. destruct H1 as (d1 & Hd1 & Hsum1 & Hv1).
  apply valid_ts_ok_inv in H2. destruct H2 as (d2 & Hd2 & Hsum2 & Hv2).
  apply Timedelta_value in Hd1. destruct Hd1 as [-> _].
  apply Timedelta_value in Hd2. destruct Hd2 as [-> _].
  symmetry in Hv1. apply negb_false_iff, existsb_exists in Hv1.
  destruct Hv1 as (row & Hin & S). apply selects_point in S.
  destruct S as (Hh & so & x & Es & Ex & Hx).
  symmetry in Hv2. apply negb_true_iff in Hv2.
  assert (X : existsb (selects (Stamp tv (Some tz)) (Stamp tv (Some tz))
                         (r2 * 60000000000) h) df = true).
  { apply existsb_exists. exists row. split; [exact Hin |].
    apply selects_point. split; [exact Hh |].
    specialize (Hsum1 row Hin Hh). specialize (Hsum2 row Hin Hh).
    destruct (end_opening row) as [eo |] eqn:Ee.
    - apply dt_add_some in Hsum1. destruct Hsum1 as [R1 V1].
      apply dt_add_some in Hsum2. destruct Hsum2 as [R2 V2].
      rewrite V1 in Ex.
      destruct (eo + r1 * 60000000000 =? -9223372036854775808) eqn:C1;
        [discriminate |].
      injection Ex as <-. apply Z.eqb_neq in C1.
      destruct (eo + r2 * 60000000000 =? -9223372036854775808) eqn:C2.
      { apply Z.eqb_eq in C2. lia. }
      exists so, (eo + r2 * 60000000000). rewrite V2.
      repeat split; try assumption; try reflexivity; lia.
    - simpl in Hsum1. injection Hsum1 as Hsum1. rewrite <- Hsum1 in Ex.
      discriminate. }
  congruence.
Qed.

(** X7: [filter_timestamps] removes only what [valid_ts] rejects: a
    timestamp of the list that is not in the result is inside the
    exclusion of a row of the hive, and [valid_ts] returns [False] for
    it. *)
Theorem filter_timestamps_removes_invalid (df : list OpeningRecord)
  (timestamps out : list datetime) (t : datetime) (h r : Z) :
  filter_timestamps df timestamps h r = Ok out ->
  In t timestamps ->
  ~ In t out ->
  valid_ts df t h r = Ok false.
Proof.
  intros Hout Hin Hnot.
  destruct (filter_timestamps_aware _ _ _ _ _ Hout) as [Ha _].
  apply filter_timestamps_ok_inv in Hout.
  destruct Hout as (sv & stz & ev & etz & ivs & _ & _ & _ & _ & Hget & ->).
  assert (At : is_aware t = true)
    by (rewrite forallb_forall in Ha; apply Ha, Hin).
  destruct (aware_inv _ At) as (tv & tz & ->).
  assert (X : existsb (inside (Stamp tv (Some tz))) ivs = true).
  { destruct (existsb (inside (Stamp tv (Some tz))) ivs) eqn:X;
      [reflexivity | exfalso].
    apply Hnot, filter_In. split.
    - eapply Permutation_in; [symmetry; apply sorted_perm | exact Hin].
    - rewrite X. reflexivity. }
  apply existsb_exists in X. destruct X as (iv & Hiv & Hi).
  apply get_invalid_times_ok_inv in Hget.
  destruct Hget as (d & Hd & Hsum & ->).
  apply in_map_iff in Hiv. destruct Hiv as (row & <- & Hrow).
  apply filter_In in Hrow. destruct Hrow as [Hrow Hsel].
  unfold selects in Hsel. apply andb_true_iff in Hsel.
  destruct Hsel as [Hh _]. apply Z.eqb_eq in Hh.
  apply inside_clipped_inv in Hi.
  destruct Hi as (tv' & so & x & Et & Es & Ex & Hb).
  injection Et as <-.
  rewrite (valid_ts_ok_intro df h r tv tz d Hd).
  - f_equal. apply negb_false_iff, existsb_exists.
    exists row. split; [exact Hrow |]. apply selects_point.
    split; [exact Hh |]. exists so, x. auto.
  - intros row' Hin' Hh'. eexists. apply (Hsum row' Hin' Hh').
Qed.

(** X8: inside the bounds, openings of the hive that start at or after
    the latest timestamp of the list and whose exclusion ends after it
    exclude nothing in [filter_timestamps], when the list has an earlier
    timestamp: the result is the whole sorted list.  This holds also for an
    opening that starts exactly at the latest timestamp, which [valid_ts]
    rejects. *)
Theorem filter_timestamps_opening_at_latest (df : list OpeningRecord)
  (timestamps : list datetime) (latest : Z) (tz : string) (h r : Z) :
  in_bounds df h r ->
  forallb is_aware timestamps = true ->
  In (Stamp latest (Some tz)) timestamps ->
  (forall t, In t timestamps -> dt_le t (Stamp latest (Some tz)) = true) ->
  (exists t, In t timestamps /\ dt_lt t (Stamp latest (Some tz)) = true) ->
  (forall row, In row df -> hive_nb row = h ->
     exists so eo, start_opening row = Some so /\ end_opening row = Some eo
                   /\ latest <= so /\ latest < eo + r * 60000000000) ->
  filter_timestamps df timestamps h r = Ok (sorted timestamps)
  /\ ((exists row eo, In row df /\ hive_nb row = h
                      /\ start_opening row = Some latest
                      /\ end_opening row = Some eo) ->
      valid_ts df (Stamp latest (Some tz)) h r = Ok false).
Proof.
  intros B Ha Hlast Hmax (t0 & Hin0 & Hlt0) Hrows.
  destruct (in_bounds_rows df h r B) as [Hd Hends]. split.
  - apply filter_timestamps_unselected; try assumption.
    { intros ->. contradiction. }
    intros sv stz ev etz row Hs He Hb Hin.
    unfold selects. destruct (hive_nb row =? h) eqn:Hh; [| reflexivity].
    apply Z.eqb_eq in Hh. simpl.
    destruct (Hrows row Hin Hh) as (so & eo & E1 & E2 & Hso & Heo).
    destruct (Hends row Hin Hh) as [[[E X] | (eo' & E & X)] _];
      [congruence |].
    assert (eo' = eo) by congruence. subst eo'.
    destruct (Hb _ Hlast) as [_ Hle]. pose proof (Hmax _ He) as Hel.
    destruct (Hb _ Hin0) as [Hs0 _].
    unfold overlaps. rewrite E1, X. simpl.
    destruct t0 as [| v0 z0]; try discriminate.
    to_arith. lia.
  - intros (row & eo & Hin & Hh & E1 & E2).
    destruct (Hrows row Hin Hh) as (so & eo' & E1' & E2' & Hso & Heo).
    rewrite E1 in E1'. injection E1' as <-.
    rewrite E2 in E2'. injection E2' as <-.
    destruct (Hends row Hin Hh) as [[[E X] | (eo' & E & X)] _];
      [congruence |].
    assert (eo' = eo) by congruence. subst eo'.
    rewrite (valid_ts_ok_intro df h r latest tz (r * 60000000000) Hd).
    + f_equal. apply negb_false_iff, existsb_exists.
      exists row. split; [exact Hin |]. apply selects_point.
      split; [exact Hh |]. exists latest, (eo + r * 60000000000).
      rewrite X. repeat split; try assumption; try reflexivity; lia.
    + intros row' Hin' Hh'. apply (Hends row' Hin' Hh').
Qed.

(** X11: the rows are judged one by one: the intervals of a table made of
    two parts are the intervals of the first part followed by those of the
    second, and an error of the one is the error of the other. *)
Theorem get_invalid_times_app (df1 df2 : list OpeningRecord)
  (start_ts end_ts : datetime) (h r : Z) :
  get_invalid_times (df1 ++ df2) start_ts end_ts h r
  = (out1 <- get_invalid_times df1 start_ts end_ts h r ;;
     out2 <- get_invalid_times df2 start_ts end_ts h r ;;
     Ok (out1 ++ out2)).
Proof.
  destruct start_ts as [| sv [stz |]]; try reflexivity.
  destruct end_ts as [| ev [etz |]]; try reflexivity.
  rewrite !get_invalid_times_steps.
  destruct (Timedelta r) as [d | e]; [| reflexivity]. cbn [bind].
  rewrite !filter_app, mapM_app_eq, map_app.
  destruct (mapM _ (filter _ df1)) as [a | e]; [| reflexivity].
  destruct (mapM _ (filter _ df2)) as [b | e]; reflexivity.
Qed.

(** X16: the zone an aware timestamp carries does not matter to
    [valid_ts], only its instant does. *)
Theorem valid_ts_zone_irrelevant (df : list OpeningRecord) (tv : Z)
  (tz tz' : string) (h r : Z) :
  valid_ts df (Stamp tv (Some tz)) h r = valid_ts df (Stamp tv (Some tz')) h r.
Proof.
  rewrite !valid_ts_steps.
  destruct (Timedelta r) as [d | e]; [| reflexivity]. cbn [bind].
  destruct (mapM _ _) as [ends | e]; [| reflexivity]. cbn [bind].
  apply (f_equal (fun b : bool => Ok (negb b))).
  induction df as [| row rest IH]; simpl; [reflexivity |].
  rewrite IH.
  rewrite (selects_instant (Stamp tv (Some tz)) (Stamp tv (Some tz'))
             (Stamp tv (Some tz)) (Stamp tv (Some tz')) d h row eq_refl eq_refl).
  reflexivity.
Qed.

(** * The order of the timestamps given *)

Lemma filter_instants (p p' : datetime -> bool) (l l' : list datetime) :
  map instant l = map instant l' ->
  (forall t t', instant t = instant t' -> p t = p' t') ->
  map instant (filter p l) = map instant (filter p' l').
Proof.
  intros Hl Hp. revert l' Hl.
  induction l as [| a rest IH]; intros [| a' rest'] Hl; simpl in *;
    try discriminate; [reflexivity |].
  injection Hl as Ha Hrest.
  rewrite (Hp a a' Ha). destruct (p' a'); simpl; [rewrite Ha; f_equal |];
    apply IH; exact Hrest.
Qed.

(** Two ascending lists with the same instants, in whatever order, have
    them in the same order. *)
Lemma ascending_instants_unique (l1 l2 : list datetime) :
  ascending l1 -> ascending l2 ->
  Permutation (map instant l1) (map instant l2) ->
  map instant l1 = map instant l2.
Proof.
  unfold ascending. revert l2.
  induction l1 as [| a rest IH]; intros l2 H1 H2 HP.
  - apply Permutation_nil in HP. simpl. congruence.
  - destruct l2 as [| b rest'].
    { apply Permutation_sym, Permutation_nil in HP. discriminate. }
    apply StronglySorted_inv in H1. destruct H1 as [S1 A1].
    apply StronglySorted_inv in H2. destruct H2 as [S2 A2].
    rewrite Forall_forall in A1, A2. simpl in *.
    assert (E : instant a = instant b).
    { assert (Ia : In (instant a) (instant b :: map instant rest'))
        by (eapply Permutation_in; [exact HP | left; reflexivity]).
      assert (Ib : In (instant b) (instant a :: map instant rest))
        by (eapply Permutation_in;
            [symmetry; exact HP | left; reflexivity]).
      destruct Ia as [Ia | Ia]; [congruence |].
      destruct Ib as [Ib | Ib]; [congruence |].
      apply in_map_iff in Ia. destruct Ia as (x & Ex & Hx).
      apply in_map_iff in Ib. destruct Ib as (y & Ey & Hy).
      pose proof (A2 x Hx) as Lbx. pose proof (A1 y Hy) as Lay.
      destruct a, b, x, y; simpl in *; try discriminate.
      injection Ex as ->. injection Ey as ->.
      to_arith. f_equal. lia. }
    rewrite E in *. f_equal.
    apply IH; try assumption.
    eapply Permutation_cons_inv. exact HP.
Qed.

(** X10: the order in which the timestamps are given does not matter:
    when [filter_timestamps] returns for a list, it returns for every
    rearrangement of the list, and the two results have the same instants
    in the same order. *)
Theorem filter_timestamps_order_irrelevant (df : list OpeningRecord)
  (timestamps timestamps' out : list datetime) (h r : Z) :
  Permutation timestamps timestamps' ->
  filter_timestamps df timestamps h r = Ok out ->
  exists out',
    filter_timestamps df timestamps' h r = Ok out'
    /\ map instant out = map instant out'.
Proof.
  intros HP Hout.
  destruct (filter_timestamps_aware _ _ _ _ _ Hout) as [Ha Hne].
  assert (Ha' : forallb is_aware timestamps' = true).
  { apply forallb_aware. eapply Permutation_Forall; [exact HP |].
    apply forallb_aware, Ha. }
  assert (Hne' : timestamps' <> []).
  { intros ->. apply Permutation_sym, Permutation_nil in HP. contradiction. }
  apply filter_timestamps_ok_inv in Hout.
  destruct Hout as (sv & stz & ev & etz & ivs & _ & _ & [Hs He] & Hb & Hget & ->).
  destruct (filter_timestamps_window df h r timestamps' Ha' Hne')
    as (sv' & stz' & ev' & etz' & _ & _ & [Hs' He'] & Hb' & Hf').
  assert (same : forall a b, dt_le a b = true -> dt_le b a = true ->
                             instant a = instant b).
  { intros [| x xz] [| y yz] L1 L2; try discriminate.
    to_arith. simpl. f_equal. lia. }
  assert (Es : instant (Stamp sv (Some stz)) = instant (Stamp sv' (Some stz'))).
  { apply same.
    - apply Hb. eapply Permutation_in; [symmetry; exact HP | exact Hs'].
    - apply Hb'. eapply Permutation_in; [exact HP | exact Hs]. }
  assert (Ee : instant (Stamp ev (Some etz)) = instant (Stamp ev' (Some etz'))).
  { apply same.
    - apply Hb'. eapply Permutation_in; [exact HP | exact He].
    - apply Hb. eapply Permutation_in; [symmetry; exact HP | exact He']. }
  apply get_invalid_times_ok_inv in Hget.
  destruct Hget as (d & Hd & Hsum & ->).
  rewrite Hf'.
  rewrite (get_invalid_times_ok_intro df sv' ev' stz' etz' h r d Hd).
  2: { intros row Hin Hh. eexists. apply (Hsum row Hin Hh). }
  cbn [bind]. eexists. split; [reflexivity |].
  apply filter_instants.
  - apply ascending_instants_unique.
    + apply sorted_ascending, forallb_aware, Ha.
    + apply sorted_ascending, forallb_aware, Ha'.
    + apply Permutation_map.
      rewrite (sorted_perm timestamps), (sorted_perm timestamps'). exact HP.
  - intros t t' Et. f_equal.
    clear - Et Es Ee. induction df as [| row rest IH]; simpl; [reflexivity |].
    rewrite (selects_instant _ _ _ _ d h row Es Ee).
    destruct (selects (Stamp sv' (Some stz')) (Stamp ev' (Some etz')) d h row);
      simpl; [| exact IH].
    rewrite (inside_instant t t' _ _ _ _ d row Et Es Ee), IH. reflexivity.
Qed.

(** * Windows and the order of the table *)

(** X14: for a window whose end is before its start, every interval that
    [get_invalid_times] returns runs from [start_ts] to [end_ts], so it
    starts after it ends and holds no timestamp. *)
Theorem get_invalid_times_inverted_window (df : list OpeningRecord)
  (sv ev : Z) (stz etz : string) (h r : Z) (out : list interval) :
  ev < sv ->
  get_invalid_times df (Stamp sv (Some stz)) (Stamp ev (Some etz)) h r = Ok out ->
  forall iv, In iv out ->
    instant (start iv) = Some sv /\ instant (end_ iv) = Some ev
    /\ forall t, inside t iv = false.
Proof.
  intros Hinv Hget iv Hiv.
  apply get_invalid_times_ok_inv in Hget.
  destruct Hget as (d & _ & _ & ->).
  apply in_map_iff in Hiv. destruct Hiv as (row & <- & Hrow).
  apply filter_In in Hrow. destruct Hrow as [_ Hsel].
  unfold selects in Hsel.
  apply andb_true_iff in Hsel. destruct Hsel as [_ Hov].
  apply overlaps_spec in Hov.
  destruct Hov as [(so & _ & H) | [(x & _ & H) | (so & x & E1 & E2 & H1 & H2)]];
    try lia.
  unfold inside, clipped, py_max, py_min. simpl. rewrite E1.
  destruct (exclusion_end d row) as [| x' xz]; [discriminate |].
  injection E2 as ->. simpl.
  unfold dt_gt, dt_lt, dt_le, compare_with. rewrite Z.gtb_ltb.
  destruct (so <? sv) eqn:C1, (ev <? x) eqn:C2; simpl;
    to_arith; (split; [f_equal; lia |]); (split; [f_equal; lia |]);
    intros [| tv ttz]; try reflexivity;
    apply andb_false_iff; to_arith; lia.
Qed.

Lemma filter_permutation {A : Type} (p : A -> bool) (l l' : list A) :
  Permutation l l' -> Permutation (filter p l) (filter p l').
Proof.
  induction 1 as [| x l l' _ IH | x y l | l l' l'' _ IH1 _ IH2]; simpl.
  - constructor.
  - destruct (p x); [apply perm_skip |]; exact IH.
  - destruct (p x), (p y); try reflexivity. apply perm_swap.
  - etransitivity; eassumption.
Qed.

Lemma existsb_permutation {A : Type} (p : A -> bool) (l l' : list A) :
  Permutation l l' -> existsb p l = existsb p l'.
Proof.
  intros HP.
  destruct (existsb p l) eqn:E, (existsb p l') eqn:E'; try reflexivity.
  - apply existsb_exists in E. destruct E as (x & Hx & Px).
    assert (X : existsb p l' = true).
    { apply existsb_exists. exists x. split; [| exact Px].
      eapply Permutation_in; eassumption. }
    congruence.
  - apply existsb_exists in E'. destruct E' as (x & Hx & Px).
    assert (X : existsb p l = true).
    { apply existsb_exists. exists x. split; [| exact Px].
      eapply Permutation_in; [symmetry |]; eassumption. }
    congruence.
Qed.

(** The sums of a column are all in range or not, whatever the order of
    the rows; the error is the same one. *)
Lemma column_permutation (d : Z) (l l' : list OpeningRecord) :
  Permutation l l' ->
  match mapM (fun row => dt_add (of_cell (end_opening row)) d) l,
        mapM (fun row => dt_add (of_cell (end_opening row)) d) l' with
  | Ok _, Ok _ => True
  | Raise e, Raise e' => e = e'
  | _, _ => False
  end.
Proof.
  intros HP.
  assert (T : forall a b : list OpeningRecord, Permutation a b ->
              forall o, mapM (fun row => dt_add (of_cell (end_opening row)) d) a = Ok o ->
              exists o', mapM (fun row => dt_add (of_cell (end_opening row)) d) b = Ok o').
  { intros a b Hab o Ho. eexists.
    apply (mapM_ok_map _ (exclusion_end d)).
    intros row Hrow.
    destruct (mapM_ok_each _ _ _ Ho row) as (y & Hy).
    { eapply Permutation_in; [symmetry; exact Hab | exact Hrow]. }
    rewrite Hy, (exclusion_end_ok _ _ _ Hy). reflexivity. }
  destruct (mapM _ l) as [o | e] eqn:E1, (mapM _ l') as [o' | e'] eqn:E2.
  - exact I.
  - destruct (T l l' HP o E1) as (o' & Ho'). congruence.
  - destruct (T l' l (Permutation_sym HP) o' E2) as (o & Ho). congruence.
  - apply mapM_raises in E1. destruct E1 as (x & _ & X).
    apply mapM_raises in E2. destruct E2 as (x' & _ & X').
    apply dt_add_raises in X. apply dt_add_raises in X'. congruence.
Qed.

Lemma get_invalid_times_permutation (df df' : list OpeningRecord)
  (start_ts end_ts : datetime) (h r : Z) :
  Permutation df df' ->
  match get_invalid_times df start_ts end_ts h r,
        get_invalid_times df' start_ts end_ts h r with
  | Ok out, Ok out' => Permutation out out'
  | Raise e, Raise e' => e = e'
  | _, _ => False
  end.
Proof.
  intros HP.
  destruct start_ts as [| sv [stz |]]; try reflexivity.
  destruct end_ts as [| ev [etz |]]; try reflexivity.
  rewrite !get_invalid_times_steps.
  destruct (Timedelta r) as [d | e]; [| reflexivity]. cbn [bind].
  pose proof (column_permutation d _ _
                (filter_permutation (fun row => hive_nb row =? h) _ _ HP)) as C.
  destruct (mapM _ (filter _ df)) as [o | e],
           (mapM _ (filter _ df')) as [o' | e']; cbn [bind];
    try contradiction; [| exact C].
  apply Permutation_map, filter_permutation, HP.
Qed.

(** X15: the order of the rows of the table, so the order of the lines of
    the log, changes no answer of [filter_timestamps] and of [valid_ts],
    errors included; when [get_invalid_times] returns for a table, it
    returns for the rearranged table the same intervals in another
    order. *)
Theorem table_order_irrelevant (df df' : list OpeningRecord) (h r : Z) :
  Permutation df df' ->
  (forall start_ts end_ts out,
      get_invalid_times df start_ts end_ts h r = Ok out ->
      exists out',
        get_invalid_times df' start_ts end_ts h r = Ok out'
        /\ Permutation out out')
  /\ (forall timestamps,
        filter_timestamps df timestamps h r = filter_timestamps df' timestamps h r)
  /\ (forall timestamp,
        valid_ts df timestamp h r = valid_ts df' timestamp h r).
Proof.
  intros HP.
  assert (F : forall timestamps,
             filter_timestamps df timestamps h r
             = filter_timestamps df' timestamps h r).
  { intros timestamps. unfold filter_timestamps.
    destruct (negb (forallb is_aware timestamps)); [reflexivity |].
    destruct (min_of (sorted timestamps)) as [s | err]; [| reflexivity].
    destruct (max_of (sorted timestamps)) as [e | err]; [| reflexivity].
    cbn [bind].
    pose proof (get_invalid_times_permutation df df' s e h r HP) as G.
    destruct (get_invalid_times df s e h r) as [out | err],
             (get_invalid_times df' s e h r) as [out' | err']; cbn [bind];
      try contradiction; [| rewrite G; reflexivity].
    f_equal. apply filter_ext.
    intros t. f_equal. apply existsb_permutation, G. }
  split; [| split; [exact F |]].
  - intros start_ts end_ts out Hout.
    pose proof (get_invalid_times_permutation df df' start_ts end_ts h r HP) as G.
    rewrite Hout in G.
    destruct (get_invalid_times df' start_ts end_ts h r) as [out' | err'];
      [| contradiction].
    exists out'. split; [reflexivity | exact G].
  - intros timestamp. unfold valid_ts. rewrite F. reflexivity.
Qed.

(** * Further properties of the loader *)

Section LoaderExtras.
Import PyStr Loader.

Variable tz_localize : Z -> result Z.

(** X1: a log without a line that gives a row, so an empty file or one of
    blank lines, comments and lines of one or two fields only, does not
    load: the frame has no column [date] and the load raises [KeyError]. *)
Theorem log_without_rows_raises (openings : list string) :
  (forall line, In line openings -> parse_line line = None) ->
  build_openings_df tz_localize openings = Raise (KeyError "date").
Proof.
  intros Hnone. unfold build_openings_df.
  assert (E : openings_data openings = []).
  { induction openings as [| line rest IH]; simpl; [reflexivity |].
    rewrite (Hnone line (or_introl eq_refl)).
    apply IH. intros l Hl. apply Hnone. right. exact Hl. }
  rewrite E. reflexivity.
Qed.

Lemma digit_run_digits (s : string) :
  forallb isdigit (list_ascii_of_string (digit_run s)) = true.
Proof.
  induction s as [| c rest IH]; simpl; [reflexivity |].
  destruct (isdigit c) eqn:E; simpl; [rewrite E, IH |]; reflexivity.
Qed.

Lemma extract_hive_digits_some (s digits : string) :
  extract_hive_digits s = Some digits ->
  digits <> EmptyString
  /\ forallb isdigit (list_ascii_of_string digits) = true.
Proof.
  induction s as [| c rest IH]; simpl; [discriminate |].
  destruct (Ascii.eqb c "h" && leading_digit rest) eqn:E; [| exact IH].
  intros H. injection H as <-. split; [| apply digit_run_digits].
  apply andb_true_iff in E. destruct E as [_ E].
  destruct rest as [| d rest']; simpl in *; [discriminate |].
  rewrite E. discriminate.
Qed.

Lemma digit_value_range (c : ascii) :
  isdigit c = true -> 0 <= digit_value c <= 9.
Proof. unfold isdigit, digit_value. intros H. to_arith. lia. Qed.

Lemma cast_explode_tokens (rows : list timed_row) (out : list OpeningRecord) :
  mapM cast_row (flat_map explode_row rows) = Ok out ->
  Forall (fun tr => exists digits,
              extract_hive_digits (hives (t_raw tr)) = Some digits) rows.
Proof.
  revert out. induction rows as [| tr rest IH]; simpl; intros out H.
  - constructor.
  - apply mapM_app in H. destruct H as (o1 & o2 & H1 & H2 & _).
    constructor; [| eapply IH; exact H2].
    unfold explode_row, hive_list in H1.
    destruct (extract_hive_digits (hives (t_raw tr))) as [digits |];
      [eauto | simpl in H1; discriminate].
Qed.

Lemma zip_rows_raw (rows : list raw_row) (starts ends : list cell) :
  List.length starts = List.length rows ->
  List.length ends = List.length rows ->
  map t_raw (zip_rows rows starts ends) = rows.
Proof.
  revert starts ends.
  induction rows as [| row rest IH]; intros [| s starts] [| e ends];
    simpl; intros H1 H2; try discriminate; [reflexivity |].
  f_equal. apply IH; lia.
Qed.

Lemma mapM_length {A B : Type} (f : A -> result B) (l : list A) (out : list B) :
  mapM f l = Ok out -> List.length out = List.length l.
Proof.
  intros H. apply mapM_Forall2 in H.
  symmetry. eapply Forall2_length. exact H.
Qed.

(** The steps of a load that succeeds. *)
Lemma build_from_rows_steps (rows : list raw_row) (out : list OpeningRecord) :
  build_from_rows tz_localize rows = Ok out ->
  rows <> []
  /\ exists s0 e0 s1 e1,
      mapM Strptime.to_datetime (map start_text rows) = Ok s0
      /\ mapM Strptime.to_datetime (map end_text rows) = Ok e0
      /\ mapM (localize_cell tz_localize) s0 = Ok s1
      /\ mapM (localize_cell tz_localize) e0 = Ok e1
      /\ mapM cast_row (flat_map explode_row (zip_rows rows s1 e1)) = Ok out.
Proof.
  unfold build_from_rows.
  destruct rows as [| row0 rest] eqn:E; [discriminate |].
  rewrite <- E. intros H.
  apply bind_ok in H. destruct H as (s0 & Hs0 & H).
  apply bind_ok in H. destruct H as (e0 & He0 & H).
  apply bind_ok in H. destruct H as (s1 & Hs1 & H).
  apply bind_ok in H. destruct H as (e1 & He1 & H).
  split; [rewrite E; discriminate |].
  exists s0, e0, s1, e1. auto.
Qed.

(** X2: in a table that loads every hive number is a single digit, from 0
    to 9, and every line that gives a row has a hive token, an [h] that
    digits follow; a kept line without one makes the load fail. *)
Theorem loaded_hive_numbers (openings : list string)
  (table : list OpeningRecord) :
  build_openings_df tz_localize openings = Ok table ->
  Forall (fun rec => 0 <= hive_nb rec <= 9) table
  /\ Forall (fun row => exists digits,
                 extract_hive_digits (hives row) = Some digits
                 /\ digits <> EmptyString)
       (openings_data openings).
Proof.
  unfold build_openings_df. intros H. split.
  - apply build_from_rows_inv in H. destruct H as (timed & _ & ->).
    apply Forall_forall. intros rec Hrec.
    apply in_flat_map in Hrec. destruct Hrec as (tr & _ & Hrec).
    unfold records_of in Hrec.
    destruct (extract_hive_digits (hives (t_raw tr))) as [digits |] eqn:E;
      [| contradiction].
    apply extract_hive_digits_some in E. destruct E as [_ E].
    apply in_map_iff in Hrec. destruct Hrec as (c & <- & Hc). simpl.
    apply digit_value_range.
    rewrite forallb_forall in E. apply E, Hc.
  - apply build_from_rows_steps in H.
    destruct H as (_ & s0 & e0 & s1 & e1 & Hs0 & He0 & Hs1 & He1 & H).
    apply cast_explode_tokens in H.
    assert (L1 : List.length s1 = List.length (openings_data openings)).
    { pose proof (mapM_length _ _ _ Hs1) as A1.
      pose proof (mapM_length _ _ _ Hs0) as A0.
      rewrite length_map in A0. exact (eq_trans A1 A0). }
    assert (L2 : List.length e1 = List.length (openings_data openings)).
    { pose proof (mapM_length _ _ _ He1) as A1.
      pose proof (mapM_length _ _ _ He0) as A0.
      rewrite length_map in A0. exact (eq_trans A1 A0). }
    rewrite <- (zip_rows_raw _ _ _ L1 L2).
    apply Forall_map. eapply Forall_impl; [| exact H].
    intros tr (digits & E). exists digits. split; [exact E |].
    apply (extract_hive_digits_some _ _ E).
Qed.

Lemma split_without_sep (sep : ascii) (s : string) (maxsplit : nat) :
  ~ In sep (list_ascii_of_string s) -> split sep s maxsplit = [s].
Proof.
  revert maxsplit. induction s as [| c rest IH]; intros maxsplit H;
    simpl; [reflexivity |].
  destruct maxsplit as [| k]; [reflexivity |].
  simpl in H.
  destruct (Ascii.eqb c sep) eqn:E.
  - apply Ascii.eqb_eq in E. exfalso. apply H. left. exact E.
  - rewrite IH; [reflexivity |]. intros Hin. apply H. right. exact Hin.
Qed.

Lemma split_with_sep (sep : ascii) (s : string) (k : nat) :
  In sep (list_ascii_of_string s) ->
  exists a b rest, split sep s (S k) = a :: b :: rest.
Proof.
  induction s as [| c tl IH]; simpl; [contradiction |].
  intros H. destruct (Ascii.eqb c sep) eqn:E.
  - pose proof (split_not_nil sep tl k) as Hn.
    destruct (split sep tl k) as [| b rest]; [contradiction | eauto].
  - destruct H as [H | H].
    + apply Ascii.eqb_neq in E. congruence.
    + destruct (IH H) as (a & b & rest & ->). eauto.
Qed.

Lemma end_text_none (row : raw_row) :
  end_text row = None <-> ~ In "-"%char (list_ascii_of_string (time row)).
Proof.
  unfold end_text, split_all. split.
  - intros H Hin.
    destruct (time row) as [| c tl] eqn:E; [contradiction |].
    destruct (split_with_sep "-" (String c tl) (String.length tl) Hin)
      as (a & b & rest & S). simpl String.length in H.
    rewrite S in H. discriminate.
  - intros H. rewrite (split_without_sep _ _ _ H). reflexivity.
Qed.

(** X3: a table that loads is made line by line: the k-th line that
    gives a row gives the k-th group of rows of the table, one row for each
    digit of its hive token.  No row of the group has [NaT] as its start,
    and the rows of the group have [NaT] as their end exactly when the time
    range of that line has no ['-']. *)
Theorem loaded_timestamps_present (openings : list string)
  (table : list OpeningRecord) :
  build_openings_df tz_localize openings = Ok table ->
  exists timed,
    Forall2 (fun row tr => t_raw tr = row) (openings_data openings) timed
    /\ table = flat_map records_of timed
    /\ forall tr rec, In tr timed -> In rec (records_of tr) ->
         (exists t, start_opening rec = Some t)
         /\ (end_opening rec = None
             <-> ~ In "-"%char (list_ascii_of_string (time (t_raw tr)))).
Proof.
  intros H.
  apply build_from_rows_inv in H. destruct H as (timed & Hall & ->).
  exists timed. split; [| split; [reflexivity |]].
  - eapply Forall2_impl; [| exact Hall]. intros row tr [E _]. exact E.
  - intros tr rec Htr Hrec.
    destruct (Forall2_In_r _ _ _ _ Hall Htr) as (row & _ & Hfrom).
    destruct Hfrom as (Hraw & (ws & Hstart) & (we & Hend)).
    assert (Hcells : start_opening rec = t_start tr
                     /\ end_opening rec = t_end tr).
    { unfold records_of in Hrec.
      destruct (extract_hive_digits (hives (t_raw tr))); [| contradiction].
      apply in_map_iff in Hrec. destruct Hrec as (c & <- & _). auto. }
    destruct Hcells as [-> ->]. rewrite Hraw.
    destruct Hstart as (text & t & _ & _ & _ & Es).
    split; [exists t; exact Es |].
    rewrite <- end_text_none.
    destruct we as [w |]; simpl in Hend.
    + destruct Hend as (text' & t' & Et & _ & _ & ->). rewrite Et.
      split; discriminate.
    + destruct Hend as [-> ->]. split; reflexivity.
Qed.

(** Every text that the loader gives to [to_datetime] has a space, the
    one between the date and the time. *)
Lemma joined_has_space (a b : string) :
  In " "%char (list_ascii_of_string (a ++ " " ++ b)).
Proof.
  induction a as [| c rest IH]; simpl; [left; reflexivity | right; exact IH].
Qed.

Lemma loader_text_has_space (row : raw_row) (text : string) :
  start_text row = Some text \/ end_text row = Some text ->
  In " "%char (list_ascii_of_string text).
Proof.
  unfold start_text, end_text.
  destruct (split_all "-" (time row)) as [| first [| second rest]];
    intros [H | H]; try discriminate; injection H as <-;
    apply joined_has_space.
Qed.

End LoaderExtras.


(** * What [to_datetime] accepts *)

Section StrptimeFacts.
Import PyStr Strptime.

Lemma in_seq_matcher {A B : Type} (p : matcher A) (k : A -> matcher B)
  (s : string) (b : B) (rest : string) :
  In (b, rest) (seq p k s) ->
  exists a mid, In (a, mid) (p s) /\ In (b, rest) (k a mid).
Proof.
  unfold seq. intros H. apply in_flat_map in H.
  destruct H as ((a & mid) & Ha & Hb). eauto.
Qed.

Lemma class_range (lo hi : ascii) (s : string) (v : Z) (rest : string) :
  In (v, rest) (class lo hi s) -> code lo - 48 <= v <= code hi - 48.
Proof.
  unfold class. destruct s as [| c tl]; [contradiction |].
  destruct (between (code lo) (code hi) c) eqn:E; [| contradiction].
  intros [H | []]. injection H as <- _.
  unfold between in E. unfold digit_value. to_arith. lia.
Qed.

Lemma pair2_range (a b c d : ascii) (s : string) (v : Z) (rest : string) :
  In (v, rest) (pair2 (class a b) (class c d) s) ->
  10 * (code a - 48) + (code c - 48) <= v
  <= 10 * (code b - 48) + (code d - 48).
Proof.
  unfold pair2. intros H.
  apply in_seq_matcher in H. destruct H as (x & mid & Hx & H).
  apply in_seq_matcher in H. destruct H as (y & mid' & Hy & H).
  destruct H as [H | []].
  assert (E : v = 10 * x + y) by (injection H as E _; symmetry; exact E).
  apply class_range in Hx. apply class_range in Hy. lia.
Qed.

(** Reads the bounds of one pattern off its alternatives. *)
Ltac alternatives H :=
  repeat (apply in_app_or in H; destruct H as [H | H]);
  first [ apply pair2_range in H
        | apply class_range in H
        | apply in_seq_matcher in H;
          destruct H as (? & ? & _ & H); apply class_range in H ];
  cbn in H; lia.

Lemma re_d_range (s : string) (v : Z) (rest : string) :
  In (v, rest) (re_d s) -> 1 <= v <= 31.
Proof. unfold re_d, alt. intros H. alternatives H. Qed.

Lemma re_m_range (s : string) (v : Z) (rest : string) :
  In (v, rest) (re_m s) -> 1 <= v <= 12.
Proof. unfold re_m, alt. intros H. alternatives H. Qed.

Lemma re_y_range (s : string) (v : Z) (rest : string) :
  In (v, rest) (re_y s) -> 0 <= v <= 99.
Proof. unfold re_y. intros H. alternatives H. Qed.

Lemma re_H_range (s : string) (v : Z) (rest : string) :
  In (v, rest) (re_H s) -> 0 <= v <= 23.
Proof. unfold re_H, alt. intros H. alternatives H. Qed.

Lemma re_M_range (s : string) (v : Z) (rest : string) :
  In (v, rest) (re_M s) -> 0 <= v <= 59.
Proof. unfold re_M, alt. intros H. alternatives H. Qed.

Lemma format_regex_range (s : string) (f : fields) (rest : string) :
  In (f, rest) (format_regex s) ->
  1 <= f_day f <= 31 /\ 1 <= f_month f <= 12 /\ 0 <= f_year f <= 99
  /\ 0 <= f_hour f <= 23 /\ 0 <= f_minute f <= 59.
Proof.
  unfold format_regex. intros H.
  apply in_seq_matcher in H. destruct H as (d & s1 & Hd & H).
  apply in_seq_matcher in H. destruct H as (? & s2 & _ & H).
  apply in_seq_matcher in H. destruct H as (m & s3 & Hm & H).
  apply in_seq_matcher in H. destruct H as (? & s4 & _ & H).
  apply in_seq_matcher in H. destruct H as (y & s5 & Hy & H).
  apply in_seq_matcher in H. destruct H as (? & s6 & _ & H).
  apply in_seq_matcher in H. destruct H as (hh & s7 & HH & H).
  apply in_seq_matcher in H. destruct H as (? & s8 & _ & H).
  apply in_seq_matcher in H. destruct H as (mm & s9 & HM & H).
  destruct H as [H | []]. injection H as <- _. simpl.
  apply re_d_range in Hd. apply re_m_range in Hm. apply re_y_range in Hy.
  apply re_H_range in HH. apply re_M_range in HM. auto.
Qed.

(** The days before a month and a day of it stay inside the year. *)
Lemma day_of_year_range (y m d : Z) :
  1 <= m <= 12 -> 1 <= d <= days_in_month y m ->
  1 <= days_before_month y m + d <= 365 + (if is_leap y then 1 else 0).
Proof.
  intros Hm Hd.
  assert (Cases : m = 1 \/ m = 2 \/ m = 3 \/ m = 4 \/ m = 5 \/ m = 6 \/ m = 7
                  \/ m = 8 \/ m = 9 \/ m = 10 \/ m = 11 \/ m = 12) by lia.
  unfold days_before_month.
  repeat (destruct Cases as [-> | Cases]); [.. | subst m];
    match goal with
    | |- context [Z.to_nat ?k] =>
        let n := eval vm_compute in (Z.to_nat k) in
        change (Z.to_nat k) with n
    end;
    cbn [days_before_month_aux]; unfold days_in_month in *;
    destruct (is_leap y);
    match type of Hd with
    | _ <= _ <= ?t => let v := eval vm_compute in t in change t with v in Hd
    end;
    match goal with
    | |- _ <= ?t + _ <= ?u =>
        let v := eval vm_compute in t in
        let w := eval vm_compute in u in
        change t with v; change u with w
    end;
    lia.
Qed.

Lemma days_before_year_step (y : Z) :
  days_before_year (y + 1)
  = days_before_year y + 365 + (if is_leap y then 1 else 0).
Proof.
  unfold days_before_year, is_leap. cbv zeta.
  replace (y + 1 - 1) with y by lia.
  destruct (y mod 4 =? 0) eqn:E4, (y mod 100 =? 0) eqn:E100,
    (y mod 400 =? 0) eqn:E400; simpl; to_arith;
    Z.div_mod_to_equations; lia.
Qed.

Lemma days_before_year_monotone (y1 y2 : Z) :
  y1 <= y2 -> days_before_year y1 <= days_before_year y2.
Proof.
  unfold days_before_year. cbv zeta. intros H.
  Z.div_mod_to_equations. lia.
Qed.


End StrptimeFacts.


(** * Logs put together *)

Section LoaderComposition.
Import PyStr Loader.

Variable tz_localize : Z -> result Z.

Lemma mapM_app_ok {A B : Type} (f : A -> result B) (l1 l2 : list A)
  (o1 o2 : list B) :
  mapM f l1 = Ok o1 -> mapM f l2 = Ok o2 -> mapM f (l1 ++ l2) = Ok (o1 ++ o2).
Proof.
  revert o1. induction l1 as [| x rest IH]; simpl; intros o1 H1 H2.
  - injection H1 as <-. exact H2.
  - apply bind_ok in H1. destruct H1 as (y & Hy & H1).
    apply bind_ok in H1. destruct H1 as (ys & Hys & H1).
    injection H1 as <-. rewrite Hy, (IH _ Hys H2). reflexivity.
Qed.

Lemma zip_rows_app (rows1 rows2 : list raw_row) (s1 s2 e1 e2 : list cell) :
  List.length s1 = List.length rows1 ->
  List.length e1 = List.length rows1 ->
  zip_rows (rows1 ++ rows2) (s1 ++ s2) (e1 ++ e2)
  = zip_rows rows1 s1 e1 ++ zip_rows rows2 s2 e2.
Proof.
  revert s1 e1.
  induction rows1 as [| row rest IH]; intros [| s s1] [| e e1];
    simpl; intros H1 H2; try discriminate; [reflexivity |].
  f_equal. apply IH; lia.
Qed.

Lemma build_from_rows_unfold (rows : list raw_row) :
  rows <> [] ->
  build_from_rows tz_localize rows
  = (s0 <- mapM Strptime.to_datetime (map start_text rows) ;;
     e0 <- mapM Strptime.to_datetime (map end_text rows) ;;
     s1 <- mapM (localize_cell tz_localize) s0 ;;
     e1 <- mapM (localize_cell tz_localize) e0 ;;
     mapM cast_row (flat_map explode_row (zip_rows rows s1 e1))).
Proof.
  destruct rows as [| row rest]; [contradiction | reflexivity].
Qed.

(** X12: two logs that load give, put one after the other, a log that
    loads, and its table is the table of the first followed by the table
    of the second: the rows keep the order of the lines. *)
Theorem build_openings_df_app (openings1 openings2 : list string)
  (table1 table2 : list OpeningRecord) :
  build_openings_df tz_localize openings1 = Ok table1 ->
  build_openings_df tz_localize openings2 = Ok table2 ->
  build_openings_df tz_localize (openings1 ++ openings2)
  = Ok (table1 ++ table2).
Proof.
  unfold build_openings_df. intros H1 H2.
  apply build_from_rows_steps in H1.
  destruct H1 as (N1 & a0 & b0 & a1 & b1 & Ha0 & Hb0 & Ha1 & Hb1 & H1).
  apply build_from_rows_steps in H2.
  destruct H2 as (N2 & c0 & d0 & c1 & d1 & Hc0 & Hd0 & Hc1 & Hd1 & H2).
  rewrite openings_data_app.
  rewrite build_from_rows_unfold.
  2: { intros E. apply app_eq_nil in E. destruct E as [E _]. contradiction. }
  rewrite !map_app. unfold cell in *.
  rewrite (mapM_app_ok _ _ _ _ _ Ha0 Hc0). cbn [bind].
  rewrite (mapM_app_ok _ _ _ _ _ Hb0 Hd0). cbn [bind].
  rewrite (mapM_app_ok _ _ _ _ _ Ha1 Hc1). cbn [bind].
  rewrite (mapM_app_ok _ _ _ _ _ Hb1 Hd1). cbn [bind].
  rewrite zip_rows_app.
  - rewrite flat_map_app. apply mapM_app_ok; assumption.
  - pose proof (mapM_length _ _ _ Ha1) as A1.
    pose proof (mapM_length _ _ _ Ha0) as A0.
    rewrite length_map in A0. exact (eq_trans A1 A0).
  - pose proof (mapM_length _ _ _ Hb1) as A1.
    pose proof (mapM_length _ _ _ Hb0) as A0.
    rewrite length_map in A0. exact (eq_trans A1 A0).
Qed.

End LoaderComposition.


Section LoaderDecomposition.
Import PyStr Loader.

Variable tz_localize : Z -> result Z.

(** X13: a load is all or nothing: when a log loads, each part of it that
    has a line giving a row loads by itself, and the table is the tables of
    the parts one after the other.  So one line that cannot be parsed makes
    the load of every log that holds it fail. *)
Theorem build_openings_df_parts (openings1 openings2 : list string)
  (table : list OpeningRecord) :
  build_openings_df tz_localize (openings1 ++ openings2) = Ok table ->
  openings_data openings1 <> [] ->
  openings_data openings2 <> [] ->
  exists table1 table2,
    build_openings_df tz_localize openings1 = Ok table1
    /\ build_openings_df tz_localize openings2 = Ok table2
    /\ table = table1 ++ table2.
Proof.
  unfold build_openings_df. intros H N1 N2.
  rewrite openings_data_app in H.
  set (rows1 := openings_data openings1) in *.
  set (rows2 := openings_data openings2) in *.
  apply build_from_rows_steps in H.
  destruct H as (_ & s0 & e0 & s1 & e1 & Hs0 & He0 & Hs1 & He1 & H).
  rewrite map_app in Hs0, He0.
  apply mapM_app in Hs0. destruct Hs0 as (a0 & c0 & Ha0 & Hc0 & ->).
  apply mapM_app in He0. destruct He0 as (b0 & d0 & Hb0 & Hd0 & ->).
  apply mapM_app in Hs1. destruct Hs1 as (a1 & c1 & Ha1 & Hc1 & ->).
  apply mapM_app in He1. destruct He1 as (b1 & d1 & Hb1 & Hd1 & ->).
  rewrite zip_rows_app in H.
  2: { pose proof (mapM_length _ _ _ Ha1) as A1.
       pose proof (mapM_length _ _ _ Ha0) as A0.
       rewrite length_map in A0. exact (eq_trans A1 A0). }
  2: { pose proof (mapM_length _ _ _ Hb1) as A1.
       pose proof (mapM_length _ _ _ Hb0) as A0.
       rewrite length_map in A0. exact (eq_trans A1 A0). }
  rewrite flat_map_app in H.
  apply mapM_app in H. destruct H as (t1 & t2 & H1 & H2 & ->).
  exists t1, t2. split; [| split; [| reflexivity]].
  - rewrite (build_from_rows_unfold tz_localize rows1 N1). unfold cell in *.
    rewrite Ha0. cbn [bind]. rewrite Hb0. cbn [bind].
    rewrite Ha1. cbn [bind]. rewrite Hb1. cbn [bind]. exact H1.
  - rewrite (build_from_rows_unfold tz_localize rows2 N2). unfold cell in *.
    rewrite Hc0. cbn [bind]. rewrite Hd0. cbn [bind].
    rewrite Hc1. cbn [bind]. rewrite Hd1. cbn [bind]. exact H2.
Qed.

End LoaderDecomposition.


(** * Concrete inputs for the further properties *)

Section ExtraSamples.
Import Loader.
Open Scope string_scope.

Lemma log_without_rows_raises_witness :
  (forall line, In line ["# openings of the spring"; ""; "h3 moved"] ->
     parse_line line = None)
  /\ build_openings_df standard_time ["# openings of the spring"; ""; "h3 moved"]
     = Raise (KeyError "date").
Proof.
  assert (H : forall line,
             In line ["# openings of the spring"; ""; "h3 moved"] ->
             parse_line line = None).
  { intros line [<- | [<- | [<- | []]]]; reflexivity. }
  split; [exact H |].
  exact (log_without_rows_raises standard_time _ H).
Defined.

Lemma loaded_hive_numbers_witness :
  build_openings_df standard_time ["01/02/24 10:00-11:00 h12 inspection"]
  = Ok [mkOpening (Some (feb1 540)) (Some (feb1 600)) 1 (Some "inspection");
        mkOpening (Some (feb1 540)) (Some (feb1 600)) 2 (Some "inspection")]
  /\ Forall (fun rec => 0 <= hive_nb rec <= 9)
       [mkOpening (Some (feb1 540)) (Some (feb1 600)) 1 (Some "inspection");
        mkOpening (Some (feb1 540)) (Some (feb1 600)) 2 (Some "inspection")].
Proof.
  assert (H : build_openings_df standard_time
                ["01/02/24 10:00-11:00 h12 inspection"]
              = Ok [mkOpening (Some (feb1 540)) (Some (feb1 600)) 1
                      (Some "inspection");
                    mkOpening (Some (feb1 540)) (Some (feb1 600)) 2
                      (Some "inspection")])
    by (vm_compute; reflexivity).
  split; [exact H |].
  exact (proj1 (loaded_hive_numbers standard_time _ _ H)).
Defined.

Lemma loaded_timestamps_present_witness :
  build_openings_df standard_time
    ["01/02/24 10:00 h3"; "01/02/24 12:00-13:00 h1"]
  = Ok [mkOpening (Some (feb1 540)) None 3 None;
        mkOpening (Some (feb1 660)) (Some (feb1 720)) 1 None]
  /\ exists timed,
      Forall2 (fun row tr => t_raw tr = row)
        (openings_data ["01/02/24 10:00 h3"; "01/02/24 12:00-13:00 h1"]) timed
      /\ [mkOpening (Some (feb1 540)) None 3 None;
          mkOpening (Some (feb1 660)) (Some (feb1 720)) 1 None]
         = flat_map records_of timed
      /\ forall tr rec, In tr timed -> In rec (records_of tr) ->
           (exists t, start_opening rec = Some t)
           /\ (end_opening rec = None
               <-> ~ In "-"%char (list_ascii_of_string (time (t_raw tr)))).
Proof.
  assert (H : build_openings_df standard_time
                ["01/02/24 10:00 h3"; "01/02/24 12:00-13:00 h1"]
              = Ok [mkOpening (Some (feb1 540)) None 3 None;
                    mkOpening (Some (feb1 660)) (Some (feb1 720)) 1 None])
    by (vm_compute; reflexivity).
  split; [exact H |].
  exact (loaded_timestamps_present standard_time _ _ H).
Defined.

Lemma hive_without_openings_witness :
  Forall (fun row => hive_nb row <> 2)
    [mkOpening (Some (feb1 540)) (Some (feb1 600)) 1 None]
  /\ -9223372036854775807 <= 60 * 60000000000 <= 9223372036854775807
  /\ valid_ts [mkOpening (Some (feb1 540)) (Some (feb1 600)) 1 None]
       (cet (feb1 580)) 2 60 = Ok true.
Proof.
  assert (H : Forall (fun row => hive_nb row <> 2)
                [mkOpening (Some (feb1 540)) (Some (feb1 600)) 1 None]).
  { constructor; [simpl; lia | constructor]. }
  assert (R : -9223372036854775807 <= 60 * 60000000000 <= 9223372036854775807)
    by lia.
  split; [exact H |]. split; [exact R |].
  exact (proj2 (proj2 (hive_without_openings _ 2 60 H R)) (feb1 580) "CET").
Defined.

Lemma valid_ts_characterisation_witness :
  in_bounds [mkOpening (Some (feb1 540)) (Some (feb1 600)) 1 None] 1 60
  /\ exists valid,
      valid_ts [mkOpening (Some (feb1 540)) (Some (feb1 600)) 1 None]
        (Stamp (feb1 630) (Some "CET")) 1 60 = Ok valid
      /\ (valid = false <->
          exists row so eo,
            In row [mkOpening (Some (feb1 540)) (Some (feb1 600)) 1 None]
            /\ hive_nb row = 1
            /\ start_opening row = Some so /\ end_opening row = Some eo
            /\ so <= feb1 630 <= eo + 60 * 60000000000).
Proof.
  assert (B : in_bounds [mkOpening (Some (feb1 540)) (Some (feb1 600)) 1 None]
                1 60) by sample_bounds.
  split; [exact B |].
  exact (valid_ts_characterisation _ 1 60 (feb1 630) "CET" B).
Defined.

Lemma valid_ts_recovery_monotone_witness :
  30 <= 60
  /\ valid_ts [mkOpening (Some (feb1 540)) (Some (feb1 600)) 1 None]
       (cet (feb1 700)) 1 60 = Ok true
  /\ valid_ts [mkOpening (Some (feb1 540)) (Some (feb1 600)) 1 None]
       (cet (feb1 700)) 1 30 = Ok true
  /\ true = true.
Proof.
  assert (H1 : 30 <= 60) by lia.
  assert (H2 : valid_ts [mkOpening (Some (feb1 540)) (Some (feb1 600)) 1 None]
                 (cet (feb1 700)) 1 60 = Ok true) by (vm_compute; reflexivity).
  assert (H3 : valid_ts [mkOpening (Some (feb1 540)) (Some (feb1 600)) 1 None]
                 (cet (feb1 700)) 1 30 = Ok true) by (vm_compute; reflexivity).
  split; [exact H1 |]. split; [exact H2 |]. split; [exact H3 |].
  exact (valid_ts_recovery_monotone _ _ 1 30 60 H1 H2 true H3).
Defined.

Lemma filter_timestamps_removes_invalid_witness :
  filter_timestamps [mkOpening (Some (feb1 540)) (Some (feb1 600)) 1 None]
    [cet (feb1 720); cet (feb1 580); cet (feb1 500)] 1 60
  = Ok [cet (feb1 500); cet (feb1 720)]
  /\ In (cet (feb1 580)) [cet (feb1 720); cet (feb1 580); cet (feb1 500)]
  /\ ~ In (cet (feb1 580)) [cet (feb1 500); cet (feb1 720)]
  /\ valid_ts [mkOpening (Some (feb1 540)) (Some (feb1 600)) 1 None]
       (cet (feb1 580)) 1 60 = Ok false.
Proof.
  assert (H1 : filter_timestamps
                 [mkOpening (Some (feb1 540)) (Some (feb1 600)) 1 None]
                 [cet (feb1 720); cet (feb1 580); cet (feb1 500)] 1 60
               = Ok [cet (feb1 500); cet (feb1 720)])
    by (vm_compute; reflexivity).
  assert (H2 : In (cet (feb1 580))
                 [cet (feb1 720); cet (feb1 580); cet (feb1 500)])
    by (right; left; reflexivity).
  assert (H3 : ~ In (cet (feb1 580)) [cet (feb1 500); cet (feb1 720)]).
  { intros [E | [E | []]]; vm_compute in E; discriminate E. }
  do 3 (split; [assumption |]).
  exact (filter_timestamps_removes_invalid _ _ _ _ 1 60 H1 H2 H3).
Defined.

Lemma filter_timestamps_opening_at_latest_witness :
  in_bounds [mkOpening (Some (feb1 600)) (Some (feb1 660)) 1 None] 1 60
  /\ filter_timestamps [mkOpening (Some (feb1 600)) (Some (feb1 660)) 1 None]
       [cet (feb1 600); cet (feb1 540)] 1 60
     = Ok (sorted [cet (feb1 600); cet (feb1 540)])
  /\ valid_ts [mkOpening (Some (feb1 600)) (Some (feb1 660)) 1 None]
       (cet (feb1 600)) 1 60 = Ok false.
Proof.
  assert (B : in_bounds [mkOpening (Some (feb1 600)) (Some (feb1 660)) 1 None]
                1 60) by sample_bounds.
  split; [exact B |].
  destruct (filter_timestamps_opening_at_latest
              [mkOpening (Some (feb1 600)) (Some (feb1 660)) 1 None]
              [cet (feb1 600); cet (feb1 540)] (feb1 600) "CET" 1 60 B)
    as [H1 H2].
  - reflexivity.
  - left; reflexivity.
  - intros t [<- | [<- | []]]; vm_compute; reflexivity.
  - exists (cet (feb1 540)). split; [right; left; reflexivity |].
    vm_compute; reflexivity.
  - intros row [<- | []] _. exists (feb1 600), (feb1 660).
    split; [reflexivity |]. split; [reflexivity |].
    unfold feb1, Strptime.ns_per_minute. lia.
  - split; [exact H1 |]. apply H2.
    exists (mkOpening (Some (feb1 600)) (Some (feb1 660)) 1 None), (feb1 660).
    repeat split; try reflexivity. left; reflexivity.
Defined.


Lemma filter_timestamps_order_irrelevant_witness :
  Permutation [cet (feb1 720); cet (feb1 500)] [cet (feb1 500); cet (feb1 720)]
  /\ filter_timestamps [mkOpening (Some (feb1 540)) (Some (feb1 600)) 1 None]
       [cet (feb1 720); cet (feb1 500)] 1 60
     = Ok [cet (feb1 500); cet (feb1 720)]
  /\ exists out',
      filter_timestamps [mkOpening (Some (feb1 540)) (Some (feb1 600)) 1 None]
        [cet (feb1 500); cet (feb1 720)] 1 60 = Ok out'
      /\ map instant [cet (feb1 500); cet (feb1 720)] = map instant out'.
Proof.
  assert (H1 : Permutation [cet (feb1 720); cet (feb1 500)]
                 [cet (feb1 500); cet (feb1 720)]) by apply perm_swap.
  assert (H2 : filter_timestamps
                 [mkOpening (Some (feb1 540)) (Some (feb1 600)) 1 None]
                 [cet (feb1 720); cet (feb1 500)] 1 60
               = Ok [cet (feb1 500); cet (feb1 720)])
    by (vm_compute; reflexivity).
  do 2 (split; [assumption |]).
  exact (filter_timestamps_order_irrelevant _ _ _ _ 1 60 H1 H2).
Defined.

Lemma build_openings_df_app_witness :
  build_openings_df standard_time ["01/02/24 10:00-11:00 h1"]
  = Ok [mkOpening (Some (feb1 540)) (Some (feb1 600)) 1 None]
  /\ build_openings_df standard_time ["01/02/24 12:00-13:00 h2"]
     = Ok [mkOpening (Some (feb1 660)) (Some (feb1 720)) 2 None]
  /\ build_openings_df standard_time
       (["01/02/24 10:00-11:00 h1"] ++ ["01/02/24 12:00-13:00 h2"])%list
     = Ok ([mkOpening (Some (feb1 540)) (Some (feb1 600)) 1 None]
           ++ [mkOpening (Some (feb1 660)) (Some (feb1 720)) 2 None])%list.
Proof.
  assert (H1 : build_openings_df standard_time ["01/02/24 10:00-11:00 h1"]
               = Ok [mkOpening (Some (feb1 540)) (Some (feb1 600)) 1 None])
    by (vm_compute; reflexivity).
  assert (H2 : build_openings_df standard_time ["01/02/24 12:00-13:00 h2"]
               = Ok [mkOpening (Some (feb1 660)) (Some (feb1 720)) 2 None])
    by (vm_compute; reflexivity).
  do 2 (split; [assumption |]).
  exact (build_openings_df_app standard_time _ _ _ _ H1 H2).
Defined.

Lemma build_openings_df_parts_witness :
  build_openings_df standard_time
    (["01/02/24 10:00-11:00 h1"] ++ ["01/02/24 12:00-13:00 h2"])%list
  = Ok [mkOpening (Some (feb1 540)) (Some (feb1 600)) 1 None;
        mkOpening (Some (feb1 660)) (Some (feb1 720)) 2 None]
  /\ openings_data ["01/02/24 10:00-11:00 h1"] <> []
  /\ openings_data ["01/02/24 12:00-13:00 h2"] <> []
  /\ exists table1 table2,
      build_openings_df standard_time ["01/02/24 10:00-11:00 h1"] = Ok table1
      /\ build_openings_df standard_time ["01/02/24 12:00-13:00 h2"] = Ok table2
      /\ [mkOpening (Some (feb1 540)) (Some (feb1 600)) 1 None;
          mkOpening (Some (feb1 660)) (Some (feb1 720)) 2 None]
         = (table1 ++ table2)%list.
Proof.
  assert (H1 : build_openings_df standard_time
                 (["01/02/24 10:00-11:00 h1"] ++ ["01/02/24 12:00-13:00 h2"])%list
               = Ok [mkOpening (Some (feb1 540)) (Some (feb1 600)) 1 None;
                     mkOpening (Some (feb1 660)) (Some (feb1 720)) 2 None])
    by (vm_compute; reflexivity).
  assert (H2 : openings_data ["01/02/24 10:00-11:00 h1"] <> [])
    by (vm_compute; discriminate).
  assert (H3 : openings_data ["01/02/24 12:00-13:00 h2"] <> [])
    by (vm_compute; discriminate).
  do 3 (split; [assumption |]).
  exact (build_openings_df_parts standard_time _ _ _ H1 H2 H3).
Defined.

Lemma get_invalid_times_inverted_window_witness :
  feb1 500 < feb1 580
  /\ get_invalid_times [mkOpening (Some (feb1 480)) (Some (feb1 600)) 1 None]
       (Stamp (feb1 580) (Some "CET")) (Stamp (feb1 500) (Some "CET")) 1 60
     = Ok [{| start := Stamp (feb1 580) (Some "CET");
              end_ := Stamp (feb1 500) (Some "CET") |}]
  /\ forall iv,
      In iv [{| start := Stamp (feb1 580) (Some "CET");
                end_ := Stamp (feb1 500) (Some "CET") |}] ->
      instant (start iv) = Some (feb1 580)
      /\ instant (end_ iv) = Some (feb1 500)
      /\ forall t, inside t iv = false.
Proof.
  assert (H : feb1 500 < feb1 580)
    by (unfold feb1, Strptime.ns_per_minute; lia).
  assert (G : get_invalid_times
                [mkOpening (Some (feb1 480)) (Some (feb1 600)) 1 None]
                (Stamp (feb1 580) (Some "CET")) (Stamp (feb1 500) (Some "CET"))
                1 60
              = Ok [{| start := Stamp (feb1 580) (Some "CET");
                       end_ := Stamp (feb1 500) (Some "CET") |}])
    by (vm_compute; reflexivity).
  split; [exact H |]. split; [exact G |].
  exact (get_invalid_times_inverted_window _ _ _ "CET" "CET" 1 60 _ H G).
Defined.

Lemma table_order_irrelevant_witness :
  Permutation
    [mkOpening (Some (feb1 540)) (Some (feb1 600)) 1 None;
     mkOpening (Some (feb1 660)) (Some (feb1 720)) 1 None]
    [mkOpening (Some (feb1 660)) (Some (feb1 720)) 1 None;
     mkOpening (Some (feb1 540)) (Some (feb1 600)) 1 None]
  /\ valid_ts
       [mkOpening (Some (feb1 540)) (Some (feb1 600)) 1 None;
        mkOpening (Some (feb1 660)) (Some (feb1 720)) 1 None]
       (cet (feb1 580)) 1 60
     = valid_ts
         [mkOpening (Some (feb1 660)) (Some (feb1 720)) 1 None;
          mkOpening (Some (feb1 540)) (Some (feb1 600)) 1 None]
         (cet (feb1 580)) 1 60.
Proof.
  assert (H : Permutation
                [mkOpening (Some (feb1 540)) (Some (feb1 600)) 1 None;
                 mkOpening (Some (feb1 660)) (Some (feb1 720)) 1 None]
                [mkOpening (Some (feb1 660)) (Some (feb1 720)) 1 None;
                 mkOpening (Some (feb1 540)) (Some (feb1 600)) 1 None])
    by apply perm_swap.
  split; [exact H |].
  exact (proj2 (proj2 (table_order_irrelevant _ _ 1 60 H)) (cet (feb1 580))).
Defined.

End ExtraSamples.
